(** * Clarify backend: the analysis workflow (graph/nodes.py, graph/workflow.py)
    and the analysis routes (api/routes/analysis.py), shallowly embedded.

    The Supabase table [analyses] is a [gmap string Row]; every call to the
    remote store may fail, which is modelled by a script of fault bits
    consumed one per store call ([true] = the call raises).  The external
    OpenAI services (file upload, classifier, analyzer) are oracles in an
    environment record.  Python exceptions are the [Raise] branch of a small
    exception-and-state monad. *)

From stdpp Require Import base gmap strings list.
From Stdlib Require Import QArith ZArith Ascii.

Open Scope string_scope.

(** ** Rows of the [analyses] table (columns written by the code) *)

Record Breakdown := mkBreakdown {
  red_flag_score : Z;
  completeness_score : Z;
  clarity_score : Z;
  fairness_score : Z
}.

(** A [score_breakdown] dict as the state holds it: a key may be missing. *)
Record PartialBreakdown := mkPartialBreakdown {
  pb_red_flag_score : option Z;
  pb_completeness_score : option Z;
  pb_clarity_score : option Z;
  pb_fairness_score : option Z
}.

Definition empty_pb : PartialBreakdown := mkPartialBreakdown None None None None.

Definition zero_pb : PartialBreakdown :=
  mkPartialBreakdown (Some 0%Z) (Some 0%Z) (Some 0%Z) (Some 0%Z).

(** A column that is absent from an insert holds SQL null ([None]).
    [score_components] is [None] for the empty dict [{}] of the insert. *)
Record Row := mkRow {
  r_id : string;
  r_document_names : list string;
  r_domain : string;
  r_domain_confidence : option Q;
  r_intent : string;
  r_language : option string;
  r_overall_score : Z;
  r_score_components : option Breakdown;
  r_executive_summary : option string;
  r_document_summary : option string;
  r_key_terms : list string;
  r_main_obligations : option (list string);
  r_red_flags : list string;
  r_scenarios : list string;
  r_missing_clauses : list string;
  r_positive_notes : option (list string);
  r_follow_up_questions : option (list string);
  r_openai_file_ids : list string;
  r_current_step : string;
  r_error : option string
}.

(** ** The world: the table and the fault script of the remote store *)

Record World := mkWorld {
  store : gmap string Row;
  faults : list bool
}.

Inductive res (A : Type) : Type :=
| Ok (a : A)
| Raise (msg : string).
Arguments Ok {A} a.
Arguments Raise {A} msg.

Definition M (A : Type) : Type := World -> res A * World.

Definition ret {A} (a : A) : M A := fun w => (Ok a, w).

Definition bind {A B} (m : M A) (k : A -> M B) : M B :=
  fun w => match m w with
           | (Ok a, w') => k a w'
           | (Raise e, w') => (Raise e, w')
           end.

Notation "'let!' x := m 'in' k" := (bind m (fun x => k))
  (at level 200, x name, m at level 100, k at level 200).

Definition raise {A} (e : string) : M A := fun w => (Raise e, w).

(** Python's [try: m except Exception as e: h(e)]. *)
Definition try_except {A} (m : M A) (h : string -> M A) : M A :=
  fun w => match m w with
           | (Ok a, w') => (Ok a, w')
           | (Raise e, w') => h e w'
           end.

(** One remote call: pops a fault bit (an empty script means no fault). *)
Definition next_fault : M bool :=
  fun w => match faults w with
           | [] => (Ok false, w)
           | b :: bs => (Ok b, mkWorld (store w) bs)
           end.

Definition db_error : string := "APIError: request to the store failed".

(** [supabase.table("analyses").insert(row).execute()] *)
Definition db_insert (id : string) (r : Row) : M unit :=
  let! b := next_fault in
  if b then raise db_error else
  fun w => match store w !! id with
           | Some _ => (Raise "APIError: duplicate key value", w)
           | None => (Ok tt, mkWorld (<[id := r]> (store w)) (faults w))
           end.

(** [supabase.table("analyses").update(fields).eq("id", id).execute()]:
    a partial update; it matches no row when the id is absent. *)
Definition db_update (id : string) (f : Row -> Row) : M unit :=
  let! b := next_fault in
  if b then raise db_error else
  fun w => (Ok tt, mkWorld (alter f id (store w)) (faults w)).

(** [...select(cols).eq("id", id).single().execute()]: [single()] raises
    when no row matches. *)
Definition db_select (id : string) : M Row :=
  let! b := next_fault in
  if b then raise db_error else
  fun w => match store w !! id with
           | Some r => (Ok r, w)
           | None => (Raise "APIError: JSON object requested, multiple (or no) rows returned", w)
           end.

(** ** api/routes/analysis.py: [calculate_progress] *)

Local Open Scope Z_scope.
Definition STEP_PROGRESS : list (string * Z) :=
  [("pending", 0); ("ingestion", 20); ("vectorization", 40);
   ("domain_detection", 50); ("decision", 55); ("question_generation", 60);
   ("waiting_for_answers", 65); ("waiting_for_intent", 55); ("analysis", 75);
   ("scoring", 90); ("format_response", 95); ("persist", 98);
   ("complete", 100); ("error", 0)].

(** [dict.get(key, default)] on a dict literal without duplicate keys. *)
Fixpoint assoc_get {V} (k : string) (d : list (string * V)) (dflt : V) : V :=
  match d with
  | [] => dflt
  | (k', v) :: d' => if String.eqb k k' then v else assoc_get k d' dflt
  end.

Definition calculate_progress (step : string) : Z :=
  assoc_get step STEP_PROGRESS 0%Z.

(** ** graph/state.py: [AnalysisState]
    ([files_metadata] keeps the [name] and [openai_file_id] of each entry;
    [language] and [domain_confidence] are optional because
    [reconstruct_state] copies SQL nulls into them). *)

Record AnalysisState := mkState {
  analysis_id : string;
  language : option string;
  openai_file_ids : list string;
  files_metadata : list (string * string);
  domain : string;
  domain_confidence : option Q;
  intent_options : list string;
  selected_intent : string;
  custom_intent : option string;
  smart_score : Z;
  score_breakdown : PartialBreakdown;
  executive_summary : string;
  document_summary : string;
  key_terms : list string;
  main_obligations : list string;
  red_flags : list string;
  scenarios : list string;
  missing_clauses : list string;
  positive_notes : list string;
  follow_up_questions : list string;
  document_names : list string;
  current_step : string;
  errors : list string
}.

(** ** External services as oracles *)

(** Outcome of one [client.files.create] call. *)
Inductive UploadOutcome :=
| Uploaded (file_id : string)
| UploadRaised (msg : string).

(** A JSON object returned by the classifier ([other_keys]: it has keys
    besides the ones read, so it is truthy even when those are absent). *)
Record ClsDict := mkClsDict {
  cd_domain : option string;
  cd_confidence : option Q;
  cd_reasoning : option string;
  cd_other_keys : bool
}.

Inductive ClsOutcome :=
| ClsRaised (msg : string)     (** [responses.create] raises *)
| ClsNoPayload                 (** [_extract_json_payload] returns [None] *)
| ClsPayload (d : ClsDict).

Record AnaDict := mkAnaDict {
  ad_smart_score : option Z;
  ad_score_breakdown : option PartialBreakdown;
  ad_executive_summary : option string;
  ad_document_summary : option string;
  ad_key_terms : option (list string);
  ad_main_obligations : option (list string);
  ad_red_flags : option (list string);
  ad_scenarios : option (list string);
  ad_missing_clauses : option (list string);
  ad_positive_notes : option (list string);
  ad_follow_up_questions : option (list string);
  ad_other_keys : bool
}.

Inductive AnaOutcome :=
| AnaRaised (msg : string)
| AnaNoPayload
| AnaPayload (d : AnaDict).

Record Env := mkEnv {
  supabase_configured : bool;  (** [get_supabase_client()] is not [None] *)
  openai_configured : bool;    (** [settings.OPENAI_API_KEY] is set *)
  temp_pdfs : string -> list string;  (** [(TEMP_DIR / id).glob("*.pdf")] *)
  upload_one : string -> UploadOutcome;
  classify : list string -> ClsOutcome;
  (** file ids, domain, intent, user notes, language *)
  analyze : list string -> string -> string -> option string -> option string -> AnaOutcome
}.

(** ** services/openai_file_service.py: [upload_files] *)

Record UploadResult := mkUploadResult {
  u_file_ids : list string;
  u_files_metadata : list (string * string);
  u_success : bool;
  u_errors : list string
}.

(** [str.split("/")]. *)
Fixpoint split_slash (s : string) (cur : string) : list string :=
  match s with
  | EmptyString => [cur]
  | String c s' =>
      if Ascii.eqb c "/"%char then cur :: split_slash s' ""
      else split_slash s' (String.append cur (String c EmptyString))
  end.

(** [Path(p).name]: the last component of the path, where [pathlib]
    drops empty and ["."] components ([""] when none is left). *)
Definition path_name (p : string) : string :=
  List.last (filter (fun c => negb (String.eqb c "" || String.eqb c "."))
                    (split_slash p "")) "".

(** The loop over [file_paths]: accumulators [file_ids], [files_metadata],
    [errors]; a metadata entry is [(file_name, openai_file_id)] with
    [file_name = Path(file_path).name]. *)
Fixpoint upload_loop (up : string -> UploadOutcome) (paths : list string)
    (ids : list string) (metas : list (string * string)) (errs : list string)
    : list string * list (string * string) * list string :=
  match paths with
  | [] => (ids, metas, errs)
  | p :: ps =>
      match up p with
      | Uploaded fid => upload_loop up ps (ids ++ [fid]) (metas ++ [(path_name p, fid)]) errs
      | UploadRaised e =>
          upload_loop up ps ids metas
            (errs ++ ["Failed to upload " ++ path_name p ++ ": " ++ e])
      end
  end.

Definition upload_files (env : Env) (paths : list string) : UploadResult :=
  if negb (openai_configured env) then
    mkUploadResult [] [] false ["OpenAI client not configured"]
  else
    let '(ids, metas, errs) := upload_loop (upload_one env) paths [] [] [] in
    mkUploadResult ids metas (bool_decide (0 < length ids)%nat) errs.

(** ** services/analysis_service.py *)

Definition cls_truthy (d : ClsDict) : bool :=
  match cd_domain d, cd_confidence d, cd_reasoning d with
  | None, None, None => cd_other_keys d
  | _, _, _ => true
  end.

Definition cls_fallback (reason : string) : ClsDict :=
  mkClsDict (Some "unsupported") (Some 0%Q) (Some reason) false.

Definition detect_domain_with_files (env : Env) (file_ids : list string) : ClsDict :=
  if negb (openai_configured env) then cls_fallback "API not configured"
  else if bool_decide (file_ids = []) then cls_fallback "No files provided"
  else match classify env file_ids with
       | ClsRaised e => cls_fallback e
       | ClsNoPayload => cls_fallback "Failed to parse response"
       | ClsPayload d => if cls_truthy d then d else cls_fallback "Failed to parse response"
       end.

Definition ana_truthy (d : AnaDict) : bool :=
  match ad_smart_score d, ad_score_breakdown d, ad_executive_summary d,
        ad_document_summary d, ad_key_terms d, ad_main_obligations d,
        ad_red_flags d, ad_scenarios d, ad_missing_clauses d,
        ad_positive_notes d, ad_follow_up_questions d with
  | None, None, None, None, None, None, None, None, None, None, None => ad_other_keys d
  | _, _, _, _, _, _, _, _, _, _, _ => true
  end.

Definition _empty_analysis (error_reason : string) : AnaDict :=
  mkAnaDict (Some 0%Z) (Some zero_pb)
    (Some ("Analysis could not be completed. " ++ error_reason)) (Some "")
    (Some []) (Some []) (Some []) (Some []) (Some []) (Some []) (Some []) false.

Definition analyze_document_with_files (env : Env) (file_ids : list string)
    (dom intent : string) (user_notes lang : option string) : AnaDict :=
  if negb (openai_configured env) then _empty_analysis "API not configured"
  else if bool_decide (file_ids = []) then _empty_analysis "No files provided"
  else match analyze env file_ids dom intent user_notes lang with
       | AnaRaised e => _empty_analysis e
       | AnaNoPayload => _empty_analysis "Failed to parse response"
       | AnaPayload d => if ana_truthy d then d else _empty_analysis "Failed to parse response"
       end.

(** ** prompts/domain_prompts.py: [DOMAIN_TAXONOMY] (intent ids per domain) *)

Definition DOMAIN_TAXONOMY : list (string * list string) :=
  [("real_estate", ["buyer"; "seller"; "reviewing"; "other"]);
   ("rental", ["tenant"; "landlord"; "reviewing"; "other"]);
   ("employment", ["employee"; "employer"; "reviewing"; "other"]);
   ("finance", ["borrower"; "lender"; "reviewing"; "other"]);
   ("insurance", ["policyholder"; "beneficiary"; "reviewing"; "other"]);
   ("legal_agreement", ["party_a"; "party_receiving"; "reviewing"; "other"])].

(** [dict.get(k, default)] on a parsed JSON object. *)
Definition get_or {A} (o : option A) (dflt : A) : A :=
  match o with Some a => a | None => dflt end.

(** ** State updates, one per [{**state, ...}] literal of the nodes *)

Definition st_with_upload (st : AnalysisState) (ids : list string)
    (metas : list (string * string)) (names : list string) (errs : list string)
    (step : string) : AnalysisState :=
  mkState (analysis_id st) (language st) ids metas (domain st) (domain_confidence st)
    (intent_options st) (selected_intent st) (custom_intent st) (smart_score st)
    (score_breakdown st) (executive_summary st) (document_summary st) (key_terms st)
    (main_obligations st) (red_flags st) (scenarios st) (missing_clauses st)
    (positive_notes st) (follow_up_questions st) names step errs.

Definition st_with_domain (st : AnalysisState) (dom : string) (conf : option Q)
    (opts : list string) (errs : list string) (step : string) : AnalysisState :=
  mkState (analysis_id st) (language st) (openai_file_ids st) (files_metadata st) dom conf
    opts (selected_intent st) (custom_intent st) (smart_score st)
    (score_breakdown st) (executive_summary st) (document_summary st) (key_terms st)
    (main_obligations st) (red_flags st) (scenarios st) (missing_clauses st)
    (positive_notes st) (follow_up_questions st) (document_names st) step errs.

Definition st_with_result (st : AnalysisState) (score : Z) (bd : PartialBreakdown)
    (exec doc : string) (kt mo rf sc mc pn fq : list string) (errs : list string)
    (step : string) : AnalysisState :=
  mkState (analysis_id st) (language st) (openai_file_ids st) (files_metadata st)
    (domain st) (domain_confidence st) (intent_options st) (selected_intent st)
    (custom_intent st) score bd exec doc kt mo rf sc mc pn fq
    (document_names st) step errs.

Definition st_with_step (st : AnalysisState) (step : string) : AnalysisState :=
  st_with_upload st (openai_file_ids st) (files_metadata st) (document_names st)
    (errors st) step.

Definition st_with_intent (st : AnalysisState) (intent : string) : AnalysisState :=
  mkState (analysis_id st) (language st) (openai_file_ids st) (files_metadata st)
    (domain st) (domain_confidence st) (intent_options st) intent
    (custom_intent st) (smart_score st)
    (score_breakdown st) (executive_summary st) (document_summary st) (key_terms st)
    (main_obligations st) (red_flags st) (scenarios st) (missing_clauses st)
    (positive_notes st) (follow_up_questions st) (document_names st)
    (current_step st) (errors st).

(** ** graph/nodes.py *)

Definition file_upload_node (env : Env) (st : AnalysisState) : AnalysisState :=
  let file_paths := temp_pdfs env (analysis_id st) in
  if bool_decide (file_paths = []) then
    st_with_upload st [] [] [] (errors st ++ ["No PDF files found"]) "error"
  else
    let result := upload_files env file_paths in
    if negb (u_success result) then
      st_with_upload st [] [] [] (errors st ++ u_errors result) "error"
    else
      st_with_upload st (u_file_ids result) (u_files_metadata result)
        (map fst (u_files_metadata result)) (errors st) "domain_detection".

Definition domain_detection_node (env : Env) (st : AnalysisState) : AnalysisState :=
  let file_ids := openai_file_ids st in
  if bool_decide (file_ids = []) then
    st_with_domain st "unsupported" (Some 0%Q) []
      (errors st ++ ["No files uploaded"]) "waiting_for_intent"
  else
    let result := detect_domain_with_files env file_ids in
    let dom := get_or (cd_domain result) "unsupported" in
    let confidence := get_or (option_map Some (cd_confidence result)) (Some 0%Q) in
    let opts := assoc_get dom DOMAIN_TAXONOMY [] in
    st_with_domain st dom confidence opts (errors st) "waiting_for_intent".

Definition analysis_node (env : Env) (st : AnalysisState) : AnalysisState :=
  let file_ids := openai_file_ids st in
  if bool_decide (file_ids = []) then
    st_with_result st 0 zero_pb
      "Analysis could not be completed - no files available" "" [] [] [] [] [] [] []
      (errors st ++ ["No files available"]) "persist"
  else
    let result := analyze_document_with_files env file_ids (domain st)
                    (selected_intent st) (custom_intent st) (language st) in
    st_with_result st
      (get_or (ad_smart_score result) 0)
      (get_or (ad_score_breakdown result) zero_pb)
      (get_or (ad_executive_summary result) "")
      (get_or (ad_document_summary result) "")
      (get_or (ad_key_terms result) [])
      (get_or (ad_main_obligations result) [])
      (get_or (ad_red_flags result) [])
      (get_or (ad_scenarios result) [])
      (get_or (ad_missing_clauses result) [])
      (get_or (ad_positive_notes result) [])
      (get_or (ad_follow_up_questions result) [])
      (errors st) "persist".

(** [score_components] built by [persist_node] with [.get(key, 0)]. *)
Definition score_components_of (bd : PartialBreakdown) : Breakdown :=
  mkBreakdown (get_or (pb_red_flag_score bd) 0) (get_or (pb_completeness_score bd) 0)
    (get_or (pb_clarity_score bd) 0) (get_or (pb_fairness_score bd) 0).

(** The row update issued by [persist_node]. *)
Definition persist_row (st : AnalysisState) (r : Row) : Row :=
  mkRow (r_id r) (document_names st) (domain st) (domain_confidence st)
    (selected_intent st) (r_language r) (smart_score st)
    (Some (score_components_of (score_breakdown st)))
    (Some (executive_summary st)) (Some (document_summary st)) (key_terms st)
    (Some (main_obligations st)) (red_flags st) (scenarios st) (missing_clauses st)
    (Some (positive_notes st)) (Some (follow_up_questions st))
    (openai_file_ids st) "complete" (r_error r).

Definition persist_node (env : Env) (st : AnalysisState) : M AnalysisState :=
  let! _ := (if supabase_configured env then
               try_except (db_update (analysis_id st) (persist_row st)) (fun _ => ret tt)
             else ret tt) in
  ret (st_with_step st "complete").

(** ** Row updates of graph/workflow.py and the routes *)

Definition row_set_step (step : string) (r : Row) : Row :=
  mkRow (r_id r) (r_document_names r) (r_domain r) (r_domain_confidence r)
    (r_intent r) (r_language r) (r_overall_score r) (r_score_components r)
    (r_executive_summary r) (r_document_summary r) (r_key_terms r)
    (r_main_obligations r) (r_red_flags r) (r_scenarios r) (r_missing_clauses r)
    (r_positive_notes r) (r_follow_up_questions r) (r_openai_file_ids r)
    step (r_error r).

(** [{"current_step": "error", "error": str(e)}] *)
Definition row_set_error (e : string) (r : Row) : Row :=
  mkRow (r_id r) (r_document_names r) (r_domain r) (r_domain_confidence r)
    (r_intent r) (r_language r) (r_overall_score r) (r_score_components r)
    (r_executive_summary r) (r_document_summary r) (r_key_terms r)
    (r_main_obligations r) (r_red_flags r) (r_scenarios r) (r_missing_clauses r)
    (r_positive_notes r) (r_follow_up_questions r) (r_openai_file_ids r)
    "error" (Some e).

(** [{"domain", "domain_confidence", "document_names", "openai_file_ids"}] *)
Definition row_set_domain_info (st : AnalysisState) (r : Row) : Row :=
  mkRow (r_id r) (document_names st) (domain st) (domain_confidence st)
    (r_intent r) (r_language r) (r_overall_score r) (r_score_components r)
    (r_executive_summary r) (r_document_summary r) (r_key_terms r)
    (r_main_obligations r) (r_red_flags r) (r_scenarios r) (r_missing_clauses r)
    (r_positive_notes r) (r_follow_up_questions r) (openai_file_ids st)
    (r_current_step r) (r_error r).

(** [{"intent": intent_value, "current_step": "analysis"}] of [select_intent] *)
Definition row_set_intent (intent : string) (r : Row) : Row :=
  mkRow (r_id r) (r_document_names r) (r_domain r) (r_domain_confidence r)
    intent (r_language r) (r_overall_score r) (r_score_components r)
    (r_executive_summary r) (r_document_summary r) (r_key_terms r)
    (r_main_obligations r) (r_red_flags r) (r_scenarios r) (r_missing_clauses r)
    (r_positive_notes r) (r_follow_up_questions r) (r_openai_file_ids r)
    "analysis" (r_error r).

(** The record inserted by [run_analysis_workflow] (with or without the
    [language] column). *)
Definition initial_row (id : string) (lang : option string) : Row :=
  mkRow id [] "" None "" lang 0 None None None [] None [] [] [] None None []
    "uploading" None.

(** ** graph/workflow.py *)

Definition initial_state (id : string) (lang : option string) (step : string)
    : AnalysisState :=
  mkState id lang [] [] "" (Some 0%Q) [] "" None 0 empty_pb
    "" "" [] [] [] [] [] [] [] [] step [].

Definition update_status (env : Env) (id step : string) : M unit :=
  if supabase_configured env then
    try_except (db_update id (row_set_step step)) (fun _ => ret tt)
  else ret tt.

(** The [except Exception as e:] handler shared by both phases: record
    the error on the row, then [raise]. *)
Definition phase_guard {A} (env : Env) (id : string) (body : M A) : M A :=
  try_except body
    (fun e => let! _ := (if supabase_configured env then db_update id (row_set_error e)
                         else ret tt) in
              raise e).

Definition create_record (env : Env) (id lang : string) : M unit :=
  if supabase_configured env then
    try_except
      (try_except (db_insert id (initial_row id (Some lang)))
                  (fun _ => db_insert id (initial_row id None)))
      (fun _ => ret tt)
  else ret tt.

Definition run_analysis_workflow (env : Env) (id lang : string) : M AnalysisState :=
  let! _ := create_record env id lang in
  let st := initial_state id (Some lang) "uploading" in
  phase_guard env id
    (let st := file_upload_node env st in
     let! _ := update_status env id (current_step st) in
     if String.eqb (current_step st) "error" then ret st else
     let st := domain_detection_node env st in
     let! _ := update_status env id (current_step st) in
     let! _ := (if supabase_configured env
                then db_update id (row_set_domain_info st) else ret tt) in
     ret st).

(** The fields [reconstruct_state] copies from a selected row; [lang] is
    the [language] entry of the result (["English"] when the column was
    not selected). *)
Definition st_with_stored (st : AnalysisState) (r : Row) (lang : option string)
    : AnalysisState :=
  mkState (analysis_id st) lang (r_openai_file_ids r) (files_metadata st)
    (r_domain r) (r_domain_confidence r) (intent_options st) (selected_intent st)
    (custom_intent st) (smart_score st)
    (score_breakdown st) (executive_summary st) (document_summary st) (key_terms st)
    (main_obligations st) (red_flags st) (scenarios st) (missing_clauses st)
    (positive_notes st) (follow_up_questions st) (r_document_names r)
    (current_step st) (errors st).

Definition reconstruct_state (env : Env) (id : string) : M AnalysisState :=
  let st := initial_state id (Some "English") "" in
  if supabase_configured env then
    try_except
      (try_except
         (let! r := db_select id in ret (st_with_stored st r (r_language r)))
         (fun _ => let! r := db_select id in ret (st_with_stored st r (Some "English"))))
      (fun _ => ret st)
  else ret st.

Definition continue_analysis_workflow (env : Env) (id intent : string)
    : M AnalysisState :=
  let! st := reconstruct_state env id in
  let st := st_with_intent st intent in
  phase_guard env id
    (let st := analysis_node env st in
     let! _ := update_status env id (current_step st) in
     let! st := persist_node env st in
     let! _ := update_status env id (current_step st) in
     ret st).

(** ** api/routes/analysis.py: [get_analysis_status] and [select_intent] *)

Record AnalysisStatus := mkStatus {
  as_status : string;
  as_current_step : string;
  as_progress : Z;
  as_error : option string
}.

Definition status_of_row (r : Row) : AnalysisStatus :=
  let step := r_current_step r in
  mkStatus
    (if String.eqb step "complete" then "complete"
     else if String.eqb step "waiting_for_intent" then "awaiting_intent"
     else "processing")
    step (calculate_progress step) (r_error r).

Definition pending_status : AnalysisStatus := mkStatus "pending" "pending" 0 None.

Definition get_analysis_status (env : Env) (id : string) : M AnalysisStatus :=
  let! found := (if supabase_configured env then
                   try_except (let! r := db_select id in ret (Some (status_of_row r)))
                              (fun _ => ret None)
                 else ret None) in
  ret (get_or found pending_status).

Record IntentSelectionRequest := mkIntentRequest {
  intent_id : string;
  req_custom_intent : option string
}.

(** Python truthiness of an [Optional[str]]. *)
Definition str_truthy (o : option string) : bool :=
  match o with Some s => negb (String.eqb s "") | None => false end.

(** Returns [next_step]; the background [continue_analysis_workflow] task
    is scheduled after the response. *)
Definition select_intent (env : Env) (id : string) (req : IntentSelectionRequest)
    : M string :=
  if negb (supabase_configured env) then raise "HTTP 500: Database not configured" else
  if String.eqb (intent_id req) "other" && negb (str_truthy (req_custom_intent req)) then
    raise "HTTP 400: Custom intent required when selecting 'Other'" else
  let intent_value := if String.eqb (intent_id req) "other"
                      then get_or (req_custom_intent req) "" else intent_id req in
  let! _ := try_except (db_update id (row_set_intent intent_value))
                       (fun e => raise ("HTTP 500: " ++ e)) in
  ret "analysis".

(** * Lemmas about the monad and the store calls *)

Section MonadFacts.

Context {A B : Type}.

Lemma bind_Ok (m : M A) (k : A -> M B) w a w' :
  m w = (Ok a, w') -> bind m k w = k a w'.
Proof. intros H. unfold bind. now rewrite H. Qed.

Lemma bind_Raise (m : M A) (k : A -> M B) w e w' :
  m w = (Raise e, w') -> bind m k w = (Raise e, w').
Proof. intros H. unfold bind. now rewrite H. Qed.

Lemma try_Ok (m : M A) h w a w' :
  m w = (Ok a, w') -> try_except m h w = (Ok a, w').
Proof. intros H. unfold try_except. now rewrite H. Qed.

Lemma try_Raise (m : M A) h w e w' :
  m w = (Raise e, w') -> try_except m h w = h e w'.
Proof. intros H. unfold try_except. now rewrite H. Qed.

End MonadFacts.

Lemma try_swallow (m : M unit) w :
  exists w', try_except m (fun _ => ret tt) w = (Ok tt, w').
Proof.
  unfold try_except. destruct (m w) as [[[] | e] w']; eauto.
Qed.

Lemma update_status_Ok env id step w :
  exists w', update_status env id step w = (Ok tt, w').
Proof.
  unfold update_status. destruct (supabase_configured env).
  - apply try_swallow.
  - eexists; reflexivity.
Qed.

Lemma create_record_Ok env id lang w :
  exists w', create_record env id lang w = (Ok tt, w').
Proof.
  unfold create_record. destruct (supabase_configured env).
  - apply try_swallow.
  - eexists; reflexivity.
Qed.

(** A store call either succeeds or raises the store error; the table is
    changed only by the successful call. *)
Lemma db_update_cases id f w :
  (db_update id f w = (Ok tt, mkWorld (alter f id (store w)) (tl (faults w)))
     /\ hd false (faults w) = false)
  \/ (db_update id f w = (Raise db_error, mkWorld (store w) (tl (faults w)))
     /\ hd false (faults w) = true).
Proof.
  unfold db_update, bind, next_fault.
  destruct w as [s [|[] fs]]; simpl; auto.
Qed.

Lemma db_select_cases id w :
  (exists r, store w !! id = Some r /\ hd false (faults w) = false
     /\ db_select id w = (Ok r, mkWorld (store w) (tl (faults w))))
  \/ (exists e, db_select id w = (Raise e, mkWorld (store w) (tl (faults w)))).
Proof.
  unfold db_select, bind, next_fault.
  destruct w as [s [|[] fs]]; simpl.
  - destruct (s !! id) eqn:E; [left; eauto | right; eauto].
  - right; eauto.
  - destruct (s !! id) eqn:E; [left; eauto | right; eauto].
Qed.

(** The store calls that can only succeed, when the fault script is empty. *)
Lemma db_update_nofault id f s :
  db_update id f (mkWorld s []) = (Ok tt, mkWorld (alter f id s) []).
Proof. reflexivity. Qed.

Lemma update_status_nofault env id step s :
  update_status env id step (mkWorld s []) =
  (Ok tt, mkWorld (if supabase_configured env then alter (row_set_step step) id s else s) []).
Proof. unfold update_status. destruct (supabase_configured env); reflexivity. Qed.

Lemma create_record_nofault env id lang s :
  exists s', create_record env id lang (mkWorld s []) = (Ok tt, mkWorld s' []).
Proof.
  unfold create_record, try_except, db_insert, bind, next_fault.
  destruct (supabase_configured env); simpl; [|eauto].
  destruct (s !! id); simpl; [|eauto].
  destruct (s !! id); simpl; eauto.
Qed.

(** * The shape of the two phases *)

(** Phase 1 returns the upload node's state when the upload step ends in
    [error], and otherwise either the domain node's state or the store
    error raised by the final write of the domain info. *)
Lemma run_analysis_workflow_shape env id lang w :
  let st1 := file_upload_node env (initial_state id (Some lang) "uploading") in
  (current_step st1 = "error" -> exists w', run_analysis_workflow env id lang w = (Ok st1, w'))
  /\ (current_step st1 <> "error" ->
      (exists w', run_analysis_workflow env id lang w = (Ok (domain_detection_node env st1), w'))
      \/ (exists w', run_analysis_workflow env id lang w = (Raise db_error, w'))).
Proof.
  intros st1. unfold run_analysis_workflow.
  destruct (create_record_Ok env id lang w) as [w1 H1].
  rewrite (bind_Ok _ _ _ _ _ H1). unfold phase_guard. fold st1.
  destruct (update_status_Ok env id (current_step st1) w1) as [w2 H2].
  split; intros Hstep.
  - exists w2. apply try_Ok. rewrite (bind_Ok _ _ _ _ _ H2).
    now rewrite Hstep.
  - destruct (update_status_Ok env id (current_step (domain_detection_node env st1)) w2)
      as [w3 H3].
    assert (Hne : String.eqb (current_step st1) "error" = false)
      by (apply String.eqb_neq; exact Hstep).
    destruct (supabase_configured env) eqn:Hsb.
    + destruct (db_update_cases id (row_set_domain_info (domain_detection_node env st1)) w3)
        as [[H4 _] | [H4 _]].
      * left. eexists. apply try_Ok. rewrite (bind_Ok _ _ _ _ _ H2), Hne.
        rewrite (bind_Ok _ _ _ _ _ H3). erewrite bind_Ok; [reflexivity | exact H4].
      * right. erewrite try_Raise.
        2:{ rewrite (bind_Ok _ _ _ _ _ H2), Hne.
            rewrite (bind_Ok _ _ _ _ _ H3). erewrite bind_Raise; [reflexivity | exact H4]. }
        simpl. unfold bind.
        destruct (db_update_cases id (row_set_error db_error)
                    (mkWorld (store w3) (tl (faults w3)))) as [[H5 _] | [H5 _]];
          rewrite H5; eexists; reflexivity.
    + left. eexists. apply try_Ok. rewrite (bind_Ok _ _ _ _ _ H2), Hne.
      rewrite (bind_Ok _ _ _ _ _ H3). reflexivity.
Qed.

Lemma persist_node_Ok env st w :
  exists w', persist_node env st w = (Ok (st_with_step st "complete"), w').
Proof.
  unfold persist_node. destruct (supabase_configured env).
  - destruct (try_swallow (db_update (analysis_id st) (persist_row st)) w) as [w' H].
    exists w'. now rewrite (bind_Ok _ _ _ _ _ H).
  - eexists; reflexivity.
Qed.

Lemma persist_node_nofault env st s :
  persist_node env st (mkWorld s []) =
  (Ok (st_with_step st "complete"),
   mkWorld (if supabase_configured env then alter (persist_row st) (analysis_id st) s else s) []).
Proof. unfold persist_node. destruct (supabase_configured env); reflexivity. Qed.

(** [reconstruct_state] never raises, leaves the table as it is, and
    returns either the defaults or the fields of the stored row. *)
Lemma reconstruct_state_cases env id w :
  exists st0 w1, reconstruct_state env id w = (Ok st0, w1) /\ store w1 = store w
    /\ (st0 = initial_state id (Some "English") ""
        \/ exists r lang, store w !! id = Some r
             /\ st0 = st_with_stored (initial_state id (Some "English") "") r lang).
Proof.
  unfold reconstruct_state. destruct (supabase_configured env); [|eauto 8].
  unfold try_except at 1.
  set (st := initial_state id (Some "English") "").
  unfold try_except at 1.
  destruct (db_select_cases id w) as [[r [Hr [_ H]]] | [e H]].
  - rewrite (bind_Ok _ _ _ _ _ H). simpl. do 2 eexists; split; [reflexivity|].
    split; [reflexivity|]. right; eauto.
  - rewrite (bind_Raise _ _ _ _ _ H).
    destruct (db_select_cases id (mkWorld (store w) (tl (faults w))))
      as [[r [Hr [_ H']]] | [e' H']].
    + rewrite (bind_Ok _ _ _ _ _ H'). simpl. do 2 eexists; split; [reflexivity|].
      split; [reflexivity|]. right; eauto.
    + rewrite (bind_Raise _ _ _ _ _ H'). simpl. do 2 eexists; split; [reflexivity|].
      split; [reflexivity|]. left; reflexivity.
Qed.

(** When the first select succeeds, the stored fields are the ones read. *)
Lemma reconstruct_state_read env id w r :
  supabase_configured env = true -> store w !! id = Some r -> hd false (faults w) = false ->
  reconstruct_state env id w =
  (Ok (st_with_stored (initial_state id (Some "English") "") r (r_language r)),
   mkWorld (store w) (tl (faults w))).
Proof.
  intros Hsb Hr Hf. unfold reconstruct_state. rewrite Hsb.
  unfold try_except, db_select, bind, next_fault.
  destruct w as [s [|[] fs]]; simpl in *; try discriminate; now rewrite Hr.
Qed.

(** Phase 2 never raises: it always returns the analysis node's state with
    step [complete]. *)
Lemma continue_analysis_workflow_shape env id intent w :
  exists st0 w1 w', reconstruct_state env id w = (Ok st0, w1)
    /\ continue_analysis_workflow env id intent w =
       (Ok (st_with_step (analysis_node env (st_with_intent st0 intent)) "complete"), w').
Proof.
  destruct (reconstruct_state_cases env id w) as [st0 [w1 [H1 _]]].
  exists st0, w1. unfold continue_analysis_workflow.
  rewrite (bind_Ok _ _ _ _ _ H1). unfold phase_guard.
  set (st2 := analysis_node env (st_with_intent st0 intent)).
  destruct (update_status_Ok env id (current_step st2) w1) as [w2 H2].
  destruct (persist_node_Ok env st2 w2) as [w3 H3].
  destruct (update_status_Ok env id (current_step (st_with_step st2 "complete")) w3)
    as [w4 H4].
  exists w4. split; [exact H1|]. apply try_Ok.
  rewrite (bind_Ok _ _ _ _ _ H2), (bind_Ok _ _ _ _ _ H3), (bind_Ok _ _ _ _ _ H4).
  reflexivity.
Qed.

(** With every store call succeeding, phase 2 on a stored row [r] performs
    exactly these three row updates. *)
Lemma continue_analysis_workflow_nofault env id intent s r :
  supabase_configured env = true -> s !! id = Some r ->
  let st2 := analysis_node env
               (st_with_intent (st_with_stored (initial_state id (Some "English") "") r
                                  (r_language r)) intent) in
  continue_analysis_workflow env id intent (mkWorld s []) =
  (Ok (st_with_step st2 "complete"),
   mkWorld (alter (row_set_step "complete") id
             (alter (persist_row st2) id (alter (row_set_step "persist") id s))) []).
Proof.
  intros Hsb Hr st2. unfold continue_analysis_workflow.
  rewrite (bind_Ok _ _ _ _ _ (reconstruct_state_read env id (mkWorld s []) r Hsb Hr eq_refl)).
  simpl tl. fold st2. unfold phase_guard. apply try_Ok.
  assert (Hs2 : current_step st2 = "persist").
  { unfold st2, analysis_node. now destruct (bool_decide _). }
  rewrite Hs2, (bind_Ok _ _ _ _ _ (update_status_nofault env id "persist" s)), Hsb.
  assert (Hid : analysis_id st2 = id).
  { unfold st2, analysis_node. now destruct (bool_decide _). }
  rewrite (bind_Ok _ _ _ _ _ (persist_node_nofault env st2 _)), Hsb, Hid.
  rewrite (bind_Ok _ _ _ _ _ (update_status_nofault env id _ _)), Hsb.
  reflexivity.
Qed.

(** * Claims *)

(** ** The progress table *)

(** C5 (code_bug): [calculate_progress] maps the listed steps as stated
    except [uploading], the step the workflow actually writes first: it is
    not a key of [STEP_PROGRESS] (which still lists the old step name
    [ingestion] at 20), so it falls back to 0. [error] maps to 0. *)
Theorem calculate_progress_uploading_missing :
  calculate_progress "uploading" = 0
  /\ calculate_progress "ingestion" = 20
  /\ calculate_progress "domain_detection" = 50
  /\ calculate_progress "waiting_for_intent" = 55
  /\ calculate_progress "analysis" = 75
  /\ calculate_progress "persist" = 98
  /\ calculate_progress "complete" = 100
  /\ calculate_progress "error" = 0.
Proof. repeat split; reflexivity. Qed.

(** ** Classifier failure *)

(** The classifier call fails: it raises, yields no JSON payload, or yields
    an empty (falsy) JSON object. *)
Definition classifier_call_fails (o : ClsOutcome) : bool :=
  match o with
  | ClsRaised _ | ClsNoPayload => true
  | ClsPayload d => negb (cls_truthy d)
  end.

Lemma domain_detection_node_failure env st :
  (openai_configured env = false
   \/ classifier_call_fails (classify env (openai_file_ids st)) = true) ->
  domain (domain_detection_node env st) = "unsupported"
  /\ domain_confidence (domain_detection_node env st) = Some 0%Q
  /\ current_step (domain_detection_node env st) = "waiting_for_intent".
Proof.
  intros Hfail. unfold domain_detection_node.
  case_bool_decide as Hids; [repeat split|].
  unfold detect_domain_with_files. rewrite (bool_decide_eq_false_2 _ Hids).
  destruct (openai_configured env); simpl; [|repeat split].
  destruct Hfail as [Hf | Hf]; [discriminate|].
  destruct (classify env (openai_file_ids st)) as [e | | d]; simpl in *;
    [repeat split | repeat split|].
  destruct (cls_truthy d); simpl in *; [discriminate | repeat split].
Qed.

Lemma create_record_nofault_world env id lang w :
  faults w = [] -> exists s', create_record env id lang w = (Ok tt, mkWorld s' []).
Proof. destruct w as [s fs]; simpl; intros ->. apply create_record_nofault. Qed.

(** C1: when the upload step obtained references and the classifier call
    fails (raises, unparseable or empty output, or no client), phase 1
    returns [domain = "unsupported"], confidence 0 and step
    [waiting_for_intent]; the only exception it can raise is the store's
    own, and with a working store it does not raise at all. *)
Theorem classifier_failure_waits_for_intent env id lang w :
  let st1 := file_upload_node env (initial_state id (Some lang) "uploading") in
  current_step st1 <> "error" ->
  (openai_configured env = false
   \/ classifier_call_fails (classify env (openai_file_ids st1)) = true) ->
  (match fst (run_analysis_workflow env id lang w) with
   | Ok st => domain st = "unsupported" /\ domain_confidence st = Some 0%Q
              /\ current_step st = "waiting_for_intent"
   | Raise e => e = db_error
   end)
  /\ (faults w = [] ->
      run_analysis_workflow env id lang w =
      (Ok (domain_detection_node env st1), snd (run_analysis_workflow env id lang w))).
Proof.
  intros st1 Hstep Hfail. split.
  - destruct (proj2 (run_analysis_workflow_shape env id lang w) Hstep)
      as [[w' H] | [w' H]]; rewrite H; simpl; [|reflexivity].
    now apply domain_detection_node_failure.
  - intros Hf. unfold run_analysis_workflow.
    destruct (create_record_nofault_world env id lang w Hf) as [s1 H1].
    rewrite (bind_Ok _ _ _ _ _ H1). unfold phase_guard. fold st1.
    rewrite (try_Ok _ _ _ (domain_detection_node env st1)
      (mkWorld (if supabase_configured env then
                  alter (row_set_domain_info (domain_detection_node env st1)) id
                    (alter (row_set_step (current_step (domain_detection_node env st1))) id
                       (alter (row_set_step (current_step st1)) id s1))
                else s1) [])).
    + reflexivity.
    + rewrite (bind_Ok _ _ _ _ _ (update_status_nofault env id _ s1)).
      rewrite (proj2 (String.eqb_neq _ _) Hstep).
      rewrite (bind_Ok _ _ _ _ _ (update_status_nofault env id _ _)).
      destruct (supabase_configured env); reflexivity.
Qed.

(** Witness environment: one PDF that uploads, a classifier that times out,
    an analyzer that raises. *)
Definition env_demo : Env :=
  mkEnv true true (fun _ => ["lease.pdf"]) (fun p => Uploaded ("file-" ++ p))
    (fun _ => ClsRaised "Request timed out.") (fun _ _ _ _ _ => AnaRaised "Connection error.").

Lemma classifier_failure_waits_for_intent_witness :
  let st1 := file_upload_node env_demo (initial_state "job-1" (Some "English") "uploading") in
  current_step st1 <> "error"
  /\ classifier_call_fails (classify env_demo (openai_file_ids st1)) = true
  /\ (match fst (run_analysis_workflow env_demo "job-1" "English" (mkWorld ∅ [])) with
      | Ok st => domain st = "unsupported" /\ domain_confidence st = Some 0%Q
                 /\ current_step st = "waiting_for_intent"
      | Raise e => e = db_error
      end).
Proof.
  split; [vm_compute; discriminate|]. split; [reflexivity|].
  apply (classifier_failure_waits_for_intent env_demo "job-1" "English" (mkWorld ∅ []));
    [vm_compute; discriminate | right; reflexivity].
Defined.

(** ** Analyzer failure *)

(** The analyzer call fails, with the reason [_empty_analysis] receives. *)
Definition analyzer_call_fails (o : AnaOutcome) : option string :=
  match o with
  | AnaRaised e => Some e
  | AnaNoPayload => Some "Failed to parse response"
  | AnaPayload d => if ana_truthy d then None else Some "Failed to parse response"
  end.

Definition analyzer_fails_with (env : Env) (st : AnalysisState) (reason : string) : Prop :=
  (openai_configured env = false /\ reason = "API not configured")
  \/ (openai_configured env = true
      /\ analyzer_call_fails (analyze env (openai_file_ids st) (domain st)
            (selected_intent st) (custom_intent st) (language st)) = Some reason).

Lemma analysis_node_failure env st reason :
  openai_file_ids st <> [] -> analyzer_fails_with env st reason ->
  executive_summary (analysis_node env st) = "Analysis could not be completed. " ++ reason
  /\ smart_score (analysis_node env st) = 0
  /\ score_breakdown (analysis_node env st) = zero_pb
  /\ current_step (analysis_node env st) = "persist".
Proof.
  intros Hids Hfail. unfold analysis_node.
  rewrite (bool_decide_eq_false_2 _ Hids). unfold analyze_document_with_files.
  rewrite (bool_decide_eq_false_2 _ Hids).
  destruct Hfail as [[Hc ->] | [Hc Hf]]; rewrite Hc; simpl; [repeat split|].
  destruct (analyze env _ _ _ _ _) as [e | | d]; simpl in *.
  - injection Hf as <-. repeat split.
  - injection Hf as <-. repeat split.
  - destruct (ana_truthy d); simpl in *; [discriminate|].
    injection Hf as <-. repeat split.
Qed.

(** C2: phase 2 never raises and always ends at step [complete]; when the
    analyzer call on the reconstructed references fails, the result's
    summary carries the failure reason and the score and the four
    sub-scores are 0. *)
Theorem analyzer_failure_degraded_complete env id intent w :
  exists st0 st w1 w',
    reconstruct_state env id w = (Ok st0, w1)
    /\ continue_analysis_workflow env id intent w = (Ok st, w')
    /\ current_step st = "complete"
    /\ forall reason,
         openai_file_ids st0 <> [] ->
         analyzer_fails_with env (st_with_intent st0 intent) reason ->
         (exists pre, executive_summary st = pre ++ reason)
         /\ smart_score st = 0
         /\ score_breakdown st = zero_pb
         /\ score_components_of (score_breakdown st) = mkBreakdown 0 0 0 0.
Proof.
  destruct (continue_analysis_workflow_shape env id intent w) as [st0 [w1 [w' [H1 H2]]]].
  exists st0, (st_with_step (analysis_node env (st_with_intent st0 intent)) "complete"), w1, w'.
  split; [exact H1|]. split; [exact H2|].
  split; [reflexivity|]. intros reason Hids Hfail.
  destruct (analysis_node_failure env (st_with_intent st0 intent) reason Hids Hfail)
    as [He [Hs [Hb _]]].
  unfold st_with_step, st_with_upload; simpl.
  rewrite He, Hs, Hb. split; [eexists; reflexivity|]. repeat split.
Qed.

(** ** Upload step *)

(** Every path of the upload loop ends up as an id or as an error. *)
Lemma upload_loop_length up ps ids metas errs :
  forall ids' metas' errs',
  upload_loop up ps ids metas errs = (ids', metas', errs') ->
  (length ids' + length errs' = length ids + length errs + length ps)%nat.
Proof.
  revert ids metas errs.
  induction ps as [|p ps IH]; intros ids metas errs ids' metas' errs' H; simpl in H.
  - injection H as -> -> ->. simpl. lia.
  - destruct (up p) as [fid | e]; apply IH in H; rewrite length_app in H; simpl in *; lia.
Qed.

(** The references the upload step obtains for job [id]. *)
Definition references_obtained (env : Env) (id : string) : list string :=
  let paths := temp_pdfs env id in
  if bool_decide (paths = []) then [] else u_file_ids (upload_files env paths).

Lemma file_upload_node_spec env st :
  let st1 := file_upload_node env st in
  let refs := references_obtained env (analysis_id st) in
  (current_step st1 = "error" <-> refs = [])
  /\ (refs = [] -> errors st1 <> [])
  /\ (refs <> [] -> current_step st1 = "domain_detection" /\ openai_file_ids st1 = refs).
Proof.
  intros st1 refs. subst st1 refs.
  unfold file_upload_node, references_obtained.
  case_bool_decide as Hp; simpl.
  - split; [tauto|]. split; [|tauto]. intros _ Hn. apply app_eq_nil in Hn as [_ Hn].
    discriminate.
  - unfold upload_files. destruct (openai_configured env); simpl.
    + destruct (upload_loop (upload_one env) (temp_pdfs env (analysis_id st)) [] [] [])
        as [[ids metas] errs] eqn:Hl.
      simpl. case_bool_decide as Hs; simpl.
      * assert (Hne : ids <> []) by (destruct ids; simpl in Hs; [lia | discriminate]).
        split; [split; [discriminate | tauto]|]. split; [tauto|]. auto.
      * assert (Hids : ids = []) by (destruct ids; simpl in Hs; [reflexivity | lia]).
        split; [tauto|]. split; [|tauto]. intros _ Hn.
        apply app_eq_nil in Hn as [_ Hn]. subst errs.
        apply upload_loop_length in Hl. rewrite Hids in Hl. simpl in Hl.
        destruct (temp_pdfs env (analysis_id st)); [congruence | simpl in Hl; lia].
    + split; [tauto|]. split; [|tauto]. intros _ Hn. apply app_eq_nil in Hn as [_ Hn].
      discriminate.
Qed.

(** C3: phase 1's upload step goes to [error] exactly when it obtains no
    reference (no PDF in the job's folder, or every upload failed); phase 1
    then returns that state, whose error list is non-empty; with at least
    one reference (also after partial failures) the step is
    [domain_detection] and the references are the uploaded ids. *)
Theorem phase1_error_iff_no_references env id lang w :
  let st1 := file_upload_node env (initial_state id (Some lang) "uploading") in
  let refs := references_obtained env id in
  (current_step st1 = "error" <-> refs = [])
  /\ (refs = [] -> exists w', run_analysis_workflow env id lang w = (Ok st1, w')
                              /\ current_step st1 = "error" /\ errors st1 <> [])
  /\ (refs <> [] -> current_step st1 = "domain_detection" /\ openai_file_ids st1 = refs).
Proof.
  intros st1 refs.
  destruct (file_upload_node_spec env (initial_state id (Some lang) "uploading"))
    as [Hiff [Herr Hok]].
  fold st1 in Hiff, Herr, Hok. simpl in Hiff, Herr, Hok. fold refs in Hiff, Herr, Hok.
  split; [exact Hiff|]. split; [|exact Hok].
  intros Hr. assert (Hs : current_step st1 = "error") by (apply Hiff; exact Hr).
  destruct (proj1 (run_analysis_workflow_shape env id lang w) Hs) as [w' H].
  exists w'. split; [exact H|]. split; [exact Hs | exact (Herr Hr)].
Qed.

(** Witness environment: the job folder holds no PDF. *)
Definition env_no_pdf : Env :=
  mkEnv true true (fun _ => []) (fun p => Uploaded p)
    (fun _ => ClsNoPayload) (fun _ _ _ _ _ => AnaNoPayload).

Lemma phase1_error_iff_no_references_witness :
  references_obtained env_no_pdf "job-2" = []
  /\ exists w', run_analysis_workflow env_no_pdf "job-2" "English" (mkWorld ∅ []) =
                (Ok (file_upload_node env_no_pdf (initial_state "job-2" (Some "English") "uploading")), w')
                /\ current_step (file_upload_node env_no_pdf
                                   (initial_state "job-2" (Some "English") "uploading")) = "error"
                /\ errors (file_upload_node env_no_pdf
                             (initial_state "job-2" (Some "English") "uploading")) <> [].
Proof.
  split; [reflexivity|].
  apply (proj1 (proj2 (phase1_error_iff_no_references env_no_pdf "job-2" "English"
                          (mkWorld ∅ [])))).
  reflexivity.
Defined.

(** ** The shared exception handler of the two phases *)

(** C4 (counterexample): phase 1 on [env_demo], where the store accepts the
    insert and the two status updates, then fails the domain-info update
    and the handler's own update: the exception escapes while the stored
    record still says [waiting_for_intent], without an error message. *)
Lemma phase_exception_not_recorded :
  let '(r, w') := run_analysis_workflow env_demo "job-1" "English"
                    (mkWorld ∅ [false; false; false; true; true]) in
  r = Raise db_error
  /\ option_map r_current_step (store w' !! "job-1") = Some "waiting_for_intent"
  /\ option_map r_error (store w' !! "job-1") = Some None.
Proof. vm_compute. repeat split. Qed.

(** The two store calls the phases re-issue after a failure: the insert
    of the new record (again, without [language]) and the select of the
    stored record (again, without [language]). *)
Lemma create_record_retry env id lang s fs :
  supabase_configured env = true -> s !! id = None -> hd false fs = false ->
  create_record env id lang (mkWorld s (true :: fs)) =
  (Ok tt, mkWorld (<[id := initial_row id None]> s) (tl fs)).
Proof.
  intros Hsb Hn Hf. unfold create_record. rewrite Hsb.
  unfold try_except, db_insert, bind, next_fault. simpl.
  destruct fs as [|[] fs]; simpl in *; try discriminate; now rewrite Hn.
Qed.

Lemma reconstruct_state_retry env id s fs r :
  supabase_configured env = true -> s !! id = Some r -> hd false fs = false ->
  reconstruct_state env id (mkWorld s (true :: fs)) =
  (Ok (st_with_stored (initial_state id (Some "English") "") r (Some "English")),
   mkWorld s (tl fs)).
Proof.
  intros Hsb Hr Hf. unfold reconstruct_state. rewrite Hsb.
  unfold try_except, db_select, bind, next_fault. simpl.
  destruct fs as [|[] fs]; simpl in *; try discriminate; now rewrite Hr.
Qed.

(** C4 (amended): when an exception [e] leaves the guarded body of a phase
    (world [w1]) and a store client is configured, the handler makes
    exactly one write attempt, which it does not retry: if it succeeds the
    row gets [current_step = "error"] and [error = e] and [e] is
    re-raised; if it fails the store's exception is raised and the table
    is exactly the one of [w1] (the record is not marked).  Without a
    client [e] is re-raised and nothing is written.  Both phases run their
    steps through [phase_guard].  Two store calls are retried once: a
    failed insert of the new record (phase 1) is re-issued without the
    language, and a failed select of the record (phase 2) is re-issued,
    the language then defaulting to [English]. *)
Theorem phase_guard_records_error_once {A} env id (body : M A) w e w1 :
  body w = (Raise e, w1) ->
  (supabase_configured env = true ->
     (hd false (faults w1) = false
      /\ phase_guard env id body w =
         (Raise e, mkWorld (alter (row_set_error e) id (store w1)) (tl (faults w1))))
     \/ (hd false (faults w1) = true
         /\ phase_guard env id body w = (Raise db_error, mkWorld (store w1) (tl (faults w1)))))
  /\ (supabase_configured env = false -> phase_guard env id body w = (Raise e, w1))
  /\ (forall lang s fs, supabase_configured env = true -> s !! id = None -> hd false fs = false ->
      create_record env id lang (mkWorld s (true :: fs)) =
      (Ok tt, mkWorld (<[id := initial_row id None]> s) (tl fs)))
  /\ (forall s fs r, supabase_configured env = true -> s !! id = Some r -> hd false fs = false ->
      reconstruct_state env id (mkWorld s (true :: fs)) =
      (Ok (st_with_stored (initial_state id (Some "English") "") r (Some "English")),
       mkWorld s (tl fs))).
Proof.
  intros Hb. split; [|split; [|split]].
  - intros Hsb. unfold phase_guard. rewrite (try_Raise _ _ _ _ _ Hb), Hsb.
    destruct (db_update_cases id (row_set_error e) w1) as [[H Hf] | [H Hf]].
    + left. split; [exact Hf|]. now rewrite (bind_Ok _ _ _ _ _ H).
    + right. split; [exact Hf|]. now rewrite (bind_Raise _ _ _ _ _ H).
  - intros Hsb. unfold phase_guard. now rewrite (try_Raise _ _ _ _ _ Hb), Hsb.
  - intros lang s fs. apply create_record_retry.
  - intros s fs r. apply reconstruct_state_retry.
Qed.

(** A stored row: phase 1 has finished for a rental lease. *)
Definition row_demo : Row :=
  mkRow "job-1" ["lease.pdf"] "rental" (Some (8 # 10)%Q) "" (Some "English") 0 None None None
    [] None [] [] [] None None ["file-lease.pdf"] "waiting_for_intent" None.

Definition world_demo (fs : list bool) : World := mkWorld {[ "job-1" := row_demo ]} fs.

Lemma phase_guard_records_error_once_witness :
  (raise "boom" : M unit) (world_demo []) = (Raise "boom", world_demo [])
  /\ supabase_configured env_demo = true
  /\ ((hd false (faults (world_demo [])) = false
       /\ phase_guard env_demo "job-1" (raise "boom" : M unit) (world_demo []) =
          (Raise "boom", mkWorld (alter (row_set_error "boom") "job-1" (store (world_demo [])))
                                 (tl (faults (world_demo [])))))
      \/ (hd false (faults (world_demo [])) = true
          /\ phase_guard env_demo "job-1" (raise "boom" : M unit) (world_demo []) =
             (Raise db_error, mkWorld (store (world_demo [])) (tl (faults (world_demo []))))))
  /\ create_record env_demo "job-1" "French" (mkWorld ∅ [true]) =
     (Ok tt, mkWorld (<[ "job-1" := initial_row "job-1" None]> ∅) [])
  /\ reconstruct_state env_demo "job-1" (world_demo [true]) =
     (Ok (st_with_stored (initial_state "job-1" (Some "English") "") row_demo (Some "English")),
      world_demo []).
Proof.
  destruct (phase_guard_records_error_once env_demo "job-1" (raise "boom" : M unit)
              (world_demo []) "boom" (world_demo []) eq_refl) as [H1 [_ [H3 H4]]].
  split; [reflexivity|]. split; [reflexivity|]. split; [apply H1; reflexivity|].
  split; [apply (H3 "French" ∅ []); reflexivity|].
  apply (H4 {[ "job-1" := row_demo ]} [] row_demo); reflexivity.
Defined.

(** ** What phase 2 reads and writes back *)

(** The four fields phase 1 stores and phase 2 reads. *)
Definition keeps_phase1_fields (r x : Row) : Prop :=
  r_domain x = r_domain r /\ r_domain_confidence x = r_domain_confidence r
  /\ r_document_names x = r_document_names r /\ r_openai_file_ids x = r_openai_file_ids r.

Definition row_keeps (id : string) (r : Row) (w : World) : Prop :=
  exists x, store w !! id = Some x /\ keeps_phase1_fields r x.

Lemma row_keeps_alter id r f (s : gmap string Row) fs :
  (forall x, keeps_phase1_fields r x -> keeps_phase1_fields r (f x)) ->
  row_keeps id r (mkWorld s fs) -> row_keeps id r (mkWorld (alter f id s) fs).
Proof.
  intros Hf [x [Hx Hk]]. exists (f x). simpl in *. split; [|auto].
  rewrite lookup_alter_eq, Hx. reflexivity.
Qed.

Lemma db_update_keeps id r f w res w' :
  (forall x, keeps_phase1_fields r x -> keeps_phase1_fields r (f x)) ->
  db_update id f w = (res, w') -> row_keeps id r w -> row_keeps id r w'.
Proof.
  intros Hf H Hk. destruct w as [s fs].
  destruct (db_update_cases id f (mkWorld s fs)) as [[H' _] | [H' _]];
    rewrite H' in H; injection H as _ <-; [now apply row_keeps_alter | exact Hk].
Qed.

Lemma swallowed_update_keeps id r f w res w' :
  (forall x, keeps_phase1_fields r x -> keeps_phase1_fields r (f x)) ->
  try_except (db_update id f) (fun _ => ret tt) w = (res, w') ->
  row_keeps id r w -> row_keeps id r w'.
Proof.
  intros Hf H Hk. destruct w as [s fs]. unfold try_except in H.
  destruct (db_update_cases id f (mkWorld s fs)) as [[H' _] | [H' _]];
    rewrite H' in H; injection H as _ <-; [now apply row_keeps_alter | exact Hk].
Qed.

Lemma update_status_keeps env id r step w res w' :
  update_status env id step w = (res, w') -> row_keeps id r w -> row_keeps id r w'.
Proof.
  unfold update_status. destruct (supabase_configured env).
  - apply swallowed_update_keeps. intros x Hx. exact Hx.
  - intros H Hk. injection H as _ <-. exact Hk.
Qed.

Lemma persist_node_keeps env st r w res w' :
  domain st = r_domain r -> domain_confidence st = r_domain_confidence r ->
  document_names st = r_document_names r -> openai_file_ids st = r_openai_file_ids r ->
  persist_node env st w = (res, w') -> row_keeps (analysis_id st) r w ->
  row_keeps (analysis_id st) r w'.
Proof.
  intros H1 H2 H3 H4 H Hk. unfold persist_node in H.
  destruct (supabase_configured env).
  - unfold bind in H.
    destruct (try_except (db_update (analysis_id st) (persist_row st)) (fun _ => ret tt) w)
      as [r0 w0] eqn:Hw.
    eapply swallowed_update_keeps in Hw; [| |exact Hk].
    + destruct r0; injection H as _ <-; exact Hw.
    + intros x _. unfold keeps_phase1_fields; simpl. auto.
  - injection H as _ <-. exact Hk.
Qed.

Lemma analysis_node_frame env st :
  analysis_id (analysis_node env st) = analysis_id st
  /\ domain (analysis_node env st) = domain st
  /\ domain_confidence (analysis_node env st) = domain_confidence st
  /\ document_names (analysis_node env st) = document_names st
  /\ openai_file_ids (analysis_node env st) = openai_file_ids st
  /\ selected_intent (analysis_node env st) = selected_intent st.
Proof. unfold analysis_node. destruct (bool_decide _); repeat split. Qed.

(** With the row stored, [reconstruct_state] reads it unless both of its
    selects raise (two store errors in a row). *)
Lemma reconstruct_state_reads env id w r :
  supabase_configured env = true -> store w !! id = Some r ->
  (forall fs, faults w <> true :: true :: fs) ->
  exists lang w1,
    reconstruct_state env id w =
    (Ok (st_with_stored (initial_state id (Some "English") "") r lang), w1)
    /\ store w1 = store w.
Proof.
  intros Hsb Hr Hn. destruct w as [s fs]. simpl in Hr.
  destruct fs as [|[] fs].
  - rewrite (reconstruct_state_read env id (mkWorld s []) r Hsb Hr eq_refl).
    do 2 eexists; split; reflexivity.
  - destruct fs as [|[] fs'].
    + rewrite (reconstruct_state_retry env id s [] r Hsb Hr eq_refl).
      do 2 eexists; split; reflexivity.
    + exfalso. exact (Hn fs' eq_refl).
    + rewrite (reconstruct_state_retry env id s (false :: fs') r Hsb Hr eq_refl).
      do 2 eexists; split; reflexivity.
  - rewrite (reconstruct_state_read env id (mkWorld s (false :: fs)) r Hsb Hr eq_refl).
    do 2 eexists; split; reflexivity.
Qed.

Lemma reconstruct_state_both_fail env id s fs :
  supabase_configured env = true ->
  reconstruct_state env id (mkWorld s (true :: true :: fs)) =
  (Ok (initial_state id (Some "English") ""), mkWorld s fs).
Proof. intros Hsb. unfold reconstruct_state. rewrite Hsb. reflexivity. Qed.

(** The store calls of phase 2 under a given fault bit. *)
Lemma update_status_bit env id step s fs :
  supabase_configured env = true ->
  update_status env id step (mkWorld s fs) =
  (Ok tt, mkWorld (if hd false fs then s else alter (row_set_step step) id s) (tl fs)).
Proof.
  intros Hsb. unfold update_status. rewrite Hsb. destruct fs as [|[] fs]; reflexivity.
Qed.

Lemma persist_node_bit env st s fs :
  supabase_configured env = true -> hd false fs = false ->
  persist_node env st (mkWorld s fs) =
  (Ok (st_with_step st "complete"), mkWorld (alter (persist_row st) (analysis_id st) s) (tl fs)).
Proof.
  intros Hsb Hf. unfold persist_node. rewrite Hsb.
  destruct fs as [|[] fs]; [reflexivity | discriminate | reflexivity].
Qed.

Lemma update_status_store env id step w res w' :
  update_status env id step w = (res, w') ->
  store w' = store w \/ store w' = alter (row_set_step step) id (store w).
Proof.
  unfold update_status. destruct (supabase_configured env).
  - unfold try_except.
    destruct (db_update_cases id (row_set_step step) w) as [[H _] | [H _]]; rewrite H;
      intros E; injection E as _ <-; simpl; auto.
  - intros E. injection E as _ <-. auto.
Qed.

(** C6 (counterexample): if both selects of [reconstruct_state] fail, the
    defaults it falls back to ([domain = ""], no references) reach
    [persist_node], whose update writes them over the stored domain and
    references of [row_demo]. *)
Lemma phase2_overwrites_domain_after_failed_read :
  let '(r, w') := continue_analysis_workflow env_demo "job-1" "tenant" (world_demo [true; true]) in
  (exists st, r = Ok st)
  /\ r_domain row_demo = "rental"
  /\ option_map r_domain (store w' !! "job-1") = Some ""
  /\ r_openai_file_ids row_demo = ["file-lease.pdf"]
  /\ option_map r_openai_file_ids (store w' !! "job-1") = Some [].
Proof. vm_compute. split; [eexists; reflexivity|]. repeat split. Qed.

(** C6 (amended): phase 2 uploads nothing.  Its read of the stored row
    [r] fails only when both selects raise (two store errors in a row); in
    every other case, whatever later store calls fail, the row it leaves
    has the same domain, confidence, document names and references as [r],
    because it writes back what it read.  When both selects raise and the
    persist update goes through, the defaults (domain [""], confidence 0,
    no document names, no references) are written over them.  When no
    store call fails, the row ends as [r] overwritten by the result of
    analysing the passed [intent] on those references, with [intent]
    stored and step [complete]. *)
Theorem continue_keeps_phase1_fields env id intent w r st w' :
  supabase_configured env = true -> store w !! id = Some r ->
  continue_analysis_workflow env id intent w = (Ok st, w') ->
  ((forall fs, faults w <> true :: true :: fs) -> row_keeps id r w')
  /\ (forall fs, faults w = true :: true :: fs -> hd false (tl fs) = false ->
      exists x, store w' !! id = Some x
        /\ r_domain x = "" /\ r_domain_confidence x = Some 0%Q
        /\ r_document_names x = [] /\ r_openai_file_ids x = [])
  /\ (faults w = [] ->
      let st2 := analysis_node env
                   (st_with_intent (st_with_stored (initial_state id (Some "English") "") r
                                      (r_language r)) intent) in
      store w' !! id = Some (row_set_step "complete" (persist_row st2 (row_set_step "persist" r)))
      /\ r_intent (row_set_step "complete" (persist_row st2 (row_set_step "persist" r))) = intent).
Proof.
  intros Hsb Hr H. split; [|split].
  - intros Hn. destruct (reconstruct_state_reads env id w r Hsb Hr Hn) as [lang [w1 [H1 Hs1]]].
    unfold continue_analysis_workflow in H. rewrite (bind_Ok _ _ _ _ _ H1) in H.
    set (st2 := analysis_node env
                  (st_with_intent (st_with_stored (initial_state id (Some "English") "") r
                                     lang) intent)) in H.
    destruct (update_status_Ok env id (current_step st2) w1) as [w2 H2].
    destruct (persist_node_Ok env st2 w2) as [w3 H3].
    destruct (update_status_Ok env id (current_step (st_with_step st2 "complete")) w3)
      as [w4 H4].
    unfold phase_guard in H.
    rewrite (try_Ok _ _ _ (st_with_step st2 "complete") w4) in H.
    2:{ rewrite (bind_Ok _ _ _ _ _ H2), (bind_Ok _ _ _ _ _ H3), (bind_Ok _ _ _ _ _ H4).
        reflexivity. }
    injection H as _ <-.
    destruct (analysis_node_frame env
                (st_with_intent (st_with_stored (initial_state id (Some "English") "") r
                                   lang) intent))
      as [Hid [Hd [Hc [Hn' [Hi _]]]]].
    fold st2 in Hid, Hd, Hc, Hn', Hi. simpl in Hid, Hd, Hc, Hn', Hi.
    eapply update_status_keeps; [exact H4|].
    rewrite <- Hid. eapply persist_node_keeps; [exact Hd | exact Hc | exact Hn' | exact Hi | exact H3|].
    rewrite Hid. eapply update_status_keeps; [exact H2|].
    exists r. split; [rewrite Hs1; exact Hr|]. repeat split.
  - intros fs Hf Hp. destruct w as [s fs0]. simpl in Hf, Hr. subst fs0.
    unfold continue_analysis_workflow in H.
    rewrite (bind_Ok _ _ _ _ _ (reconstruct_state_both_fail env id s _ Hsb)) in H.
    set (st2 := analysis_node env (st_with_intent (initial_state id (Some "English") "") intent))
      in H.
    set (s1 := if hd false fs then s else alter (row_set_step (current_step st2)) id s).
    set (s3 := alter (persist_row st2) (analysis_id st2) s1).
    destruct (update_status_Ok env id (current_step (st_with_step st2 "complete"))
                (mkWorld s3 (tl (tl fs))))
      as [w4 H4].
    unfold phase_guard in H.
    rewrite (try_Ok _ _ _ (st_with_step st2 "complete") w4) in H.
    2:{ rewrite (bind_Ok _ _ _ _ _ (update_status_bit env id (current_step st2) s _ Hsb)).
        fold s1. rewrite (bind_Ok _ _ _ _ _ (persist_node_bit env st2 s1 (tl fs) Hsb Hp)).
        fold s3. rewrite (bind_Ok _ _ _ _ _ H4). reflexivity. }
    injection H as _ <-.
    set (y := if hd false fs then r else row_set_step (current_step st2) r).
    assert (Hs1 : s1 !! id = Some y)
      by (unfold s1, y; destruct (hd false fs); [exact Hr | now rewrite lookup_alter_eq, Hr]).
    assert (Hs3 : s3 !! id = Some (persist_row st2 y)).
    { assert (Hid2 : analysis_id st2 = id) by (unfold st2, analysis_node; now destruct (bool_decide _)).
      unfold s3. rewrite Hid2, lookup_alter_eq, Hs1. reflexivity. }
    apply update_status_store in H4. simpl in H4.
    destruct H4 as [-> | ->].
    + exists (persist_row st2 y). split; [exact Hs3|]. simpl. repeat split.
    + exists (row_set_step "complete" (persist_row st2 y)). split; [now rewrite lookup_alter_eq, Hs3|].
      simpl. repeat split.
  - intros Hnf st2. destruct w as [s fs]. simpl in Hnf, Hr. subst fs.
    rewrite (continue_analysis_workflow_nofault env id intent s r Hsb Hr) in H.
    injection H as _ <-. simpl.
    rewrite !lookup_alter_eq, Hr. split; [reflexivity|].
    simpl. destruct (analysis_node_frame env
                (st_with_intent (st_with_stored (initial_state id (Some "English") "") r
                                   (r_language r)) intent)) as [_ [_ [_ [_ [_ Hi]]]]].
    exact Hi.
Qed.

(** The fault script of the witness: the first select raises, the retry
    reads the row. *)
Lemma continue_keeps_phase1_fields_witness :
  let '(res, w') := continue_analysis_workflow env_demo "job-1" "tenant" (world_demo [true]) in
  supabase_configured env_demo = true /\ store (world_demo [true]) !! "job-1" = Some row_demo
  /\ (exists st, res = Ok st)
  /\ row_keeps "job-1" row_demo w'.
Proof.
  destruct (continue_analysis_workflow env_demo "job-1" "tenant" (world_demo [true]))
    as [res w'] eqn:H.
  split; [reflexivity|]. split; [reflexivity|].
  destruct (continue_analysis_workflow_shape env_demo "job-1" "tenant" (world_demo [true]))
    as [st0 [w1 [w'' [_ H']]]].
  rewrite H in H'. injection H' as -> ->. split; [eexists; reflexivity|].
  refine (proj1 (continue_keeps_phase1_fields env_demo "job-1" "tenant" (world_demo [true])
                   row_demo _ _ eq_refl eq_refl H) _).
  intros fs E. discriminate E.
Defined.

(** ** The result written by phase 2 *)

(** The columns [persist_node] writes that the initial insert leaves at
    null or [{}]: a row with all of them set carries a schema-complete
    result. *)
Definition result_populated (x : Row) : bool :=
  match r_score_components x, r_executive_summary x, r_document_summary x,
        r_main_obligations x, r_positive_notes x, r_follow_up_questions x with
  | Some _, Some _, Some _, Some _, Some _, Some _ => true
  | _, _, _, _, _, _ => false
  end.







(** C9 (counterexample): the persist update of [row_demo] fails (third
    store call); [persist_node] only logs it, and the next status update
    still writes [complete]: the row is [complete] without a result. *)
Lemma complete_without_result :
  let '(res, w') := continue_analysis_workflow env_demo "job-1" "tenant"
                      (world_demo [false; false; true; false]) in
  option_map r_current_step (store w' !! "job-1") = Some "complete"
  /\ option_map result_populated (store w' !! "job-1") = Some false.
Proof. vm_compute. split; reflexivity. Qed.

(** C9 (amended): the persist update writes the whole result together with
    [current_step = "complete"] in one row update; when the store works,
    the row phase 2 leaves is [complete] with a populated result.  (When
    that update fails the following status update still writes
    [complete], see [complete_without_result].) *)
Theorem persist_writes_result_with_complete env id intent w r :
  supabase_configured env = true -> store w !! id = Some r -> faults w = [] ->
  (forall st x, r_current_step (persist_row st x) = "complete"
                /\ result_populated (persist_row st x) = true)
  /\ exists x, store (snd (continue_analysis_workflow env id intent w)) !! id = Some x
               /\ r_current_step x = "complete" /\ result_populated x = true.
Proof.
  intros Hsb Hr Hf. split; [intros; split; reflexivity|].
  destruct w as [s fs]. simpl in Hr, Hf. subst fs.
  rewrite (continue_analysis_workflow_nofault env id intent s r Hsb Hr). simpl.
  rewrite !lookup_alter_eq, Hr. eexists. split; [reflexivity|]. split; reflexivity.
Qed.

Lemma persist_writes_result_with_complete_witness :
  supabase_configured env_demo = true
  /\ store (world_demo []) !! "job-1" = Some row_demo /\ faults (world_demo []) = []
  /\ exists x, store (snd (continue_analysis_workflow env_demo "job-1" "tenant" (world_demo [])))
                 !! "job-1" = Some x
               /\ r_current_step x = "complete" /\ result_populated x = true.
Proof.
  split; [reflexivity|]. split; [reflexivity|]. split; [reflexivity|].
  apply (persist_writes_result_with_complete env_demo "job-1" "tenant" (world_demo []) row_demo);
    reflexivity.
Defined.

(** ** Writers of the job record outside the workflow *)


(** ** Status polling *)

Definition status_well_formed (s : AnalysisStatus) : Prop :=
  as_progress s = calculate_progress (as_current_step s)
  /\ In (as_status s) ["pending"; "processing"; "awaiting_intent"; "complete"].

(** C10: [get_analysis_status] never raises and does not change the table;
    its answer is a well-formed status; when no record exists, or the read
    fails, or no store is configured, it is the [pending] status with
    progress 0 and no error. *)
Theorem get_analysis_status_total env id w :
  exists s w',
    get_analysis_status env id w = (Ok s, w')
    /\ store w' = store w
    /\ status_well_formed s
    /\ (store w !! id = None \/ hd false (faults w) = true \/ supabase_configured env = false ->
        s = pending_status)
    /\ as_status pending_status = "pending" /\ as_progress pending_status = 0
    /\ as_error pending_status = None.
Proof.
  assert (Hp : status_well_formed pending_status) by (split; [reflexivity | simpl; auto]).
  assert (Hrow : forall r, status_well_formed (status_of_row r)).
  { intros r. split; [reflexivity|]. unfold status_of_row. simpl.
    destruct (String.eqb (r_current_step r) "complete"); [auto|].
    destruct (String.eqb (r_current_step r) "waiting_for_intent"); simpl; auto. }
  unfold get_analysis_status. destruct (supabase_configured env) eqn:Hsb.
  - destruct (db_select_cases id w) as [[r [Hr [Hf H]]] | [e H]].
    + assert (Hq : try_except (let! r := db_select id in ret (Some (status_of_row r)))
                     (fun _ => ret None) w
                   = (Ok (Some (status_of_row r)), mkWorld (store w) (tl (faults w)))).
      { apply try_Ok. now rewrite (bind_Ok _ _ _ _ _ H). }
      rewrite (bind_Ok _ _ _ _ _ Hq). do 2 eexists. split; [reflexivity|].
      split; [reflexivity|]. split; [apply Hrow|].
      split; [|repeat split]. intros [Hn | [Hn | Hn]]; congruence.
    + assert (Hq : try_except (let! r := db_select id in ret (Some (status_of_row r)))
                     (fun _ => ret None) w
                   = (Ok None, mkWorld (store w) (tl (faults w)))).
      { rewrite (try_Raise _ _ _ _ _ (bind_Raise _ _ _ _ _ H)). reflexivity. }
      rewrite (bind_Ok _ _ _ _ _ Hq). do 2 eexists. split; [reflexivity|].
      split; [reflexivity|]. split; [exact Hp|]. repeat split.
  - do 2 eexists. split; [reflexivity|]. split; [reflexivity|]. split; [exact Hp|].
    repeat split.
Qed.

(** * Further properties of the code *)

(** ** services/openai_file_service.py *)

(** The metadata entry of an uploaded [(path, id)]. *)
Definition meta_of (m : string * string) : string * string := (path_name (fst m), snd m).

(** The loop keeps each uploaded file as a [(path, id)] pair whose upload
    returned that id, in the order of the paths; its metadata entry holds
    the file's name. *)
Lemma upload_loop_uploaded up ps ids metas errs ids' metas' errs' :
  upload_loop up ps ids metas errs = (ids', metas', errs') ->
  exists ms, metas' = (metas ++ map meta_of ms)%list /\ ids' = (ids ++ map snd ms)%list
    /\ sublist (map fst ms) ps
    /\ Forall (fun m => up (fst m) = Uploaded (snd m)) ms.
Proof.
  revert ids metas errs.
  induction ps as [|p ps IH]; intros ids metas errs H; simpl in H.
  - injection H as <- <- <-. exists []. rewrite !app_nil_r. repeat split; constructor.
  - destruct (up p) as [fid | e] eqn:Hp.
    + destruct (IH _ _ _ H) as [ms [Hm [Hi [Hs Hf]]]].
      exists ((p, fid) :: ms). rewrite Hm, Hi, <- !app_assoc. simpl.
      repeat split; [apply sublist_skip; exact Hs | constructor; [exact Hp | exact Hf]].
    + destruct (IH _ _ _ H) as [ms [Hm [Hi [Hs Hf]]]].
      exists ms. repeat split; [exact Hm | exact Hi | apply sublist_cons; exact Hs | exact Hf].
Qed.

(** With a client, [upload_files] is determined by the uploaded
    [(path, id)] pairs and the error list. *)
Lemma upload_files_shape env paths :
  openai_configured env = true ->
  exists ms errs,
    upload_files env paths =
      mkUploadResult (map snd ms) (map meta_of ms) (bool_decide (0 < length ms)%nat) errs
    /\ sublist (map fst ms) paths
    /\ Forall (fun m => upload_one env (fst m) = Uploaded (snd m)) ms
    /\ (length ms + length errs = length paths)%nat.
Proof.
  intros Hc. unfold upload_files. rewrite Hc. simpl.
  destruct (upload_loop (upload_one env) paths [] [] []) as [[ids metas] errs] eqn:Hl.
  pose proof (upload_loop_length _ _ _ _ _ _ _ _ Hl) as Hlen.
  apply upload_loop_uploaded in Hl as [ms [-> [-> [Hs Hf]]]]. simpl in *.
  rewrite ?length_map in Hlen.
  exists ms, errs. rewrite length_map. repeat split; [exact Hs | exact Hf | lia].
Qed.



(** X2: after a successful upload step, [document_names] and
    [openai_file_ids] come from the same non-empty list of uploaded
    [(path, id)] pairs, in the order of the job's PDFs: the i-th name is
    the name ([Path(path).name]) of the file the i-th id was uploaded
    from. *)
Theorem file_upload_node_names_match_ids env st :
  current_step (file_upload_node env st) = "domain_detection" ->
  let st1 := file_upload_node env st in
  exists ms,
    document_names st1 = map (fun m => path_name (fst m)) ms
    /\ openai_file_ids st1 = map snd ms
    /\ ms <> []
    /\ sublist (map fst ms) (temp_pdfs env (analysis_id st))
    /\ Forall (fun m => upload_one env (fst m) = Uploaded (snd m)) ms.
Proof.
  intros Hs st1. subst st1. revert Hs. unfold file_upload_node.
  case_bool_decide as Hp; [discriminate|].
  destruct (openai_configured env) eqn:Hc;
    [|unfold upload_files; rewrite Hc; discriminate].
  destruct (upload_files_shape env (temp_pdfs env (analysis_id st)) Hc)
    as [ms [errs [-> [Hsub [Hf _]]]]].
  simpl. case_bool_decide as Hl; simpl; [intros _ | discriminate].
  exists ms. rewrite map_map. repeat split; [| exact Hsub | exact Hf].
  intros ->. simpl in Hl. lia.
Qed.

Lemma file_upload_node_names_match_ids_witness :
  current_step (file_upload_node env_demo (initial_state "job-1" (Some "English") "uploading"))
    = "domain_detection"
  /\ (let st1 := file_upload_node env_demo (initial_state "job-1" (Some "English") "uploading") in
      exists ms,
        document_names st1 = map (fun m => path_name (fst m)) ms
        /\ openai_file_ids st1 = map snd ms
        /\ ms <> []
        /\ sublist (map fst ms) (temp_pdfs env_demo "job-1")
        /\ Forall (fun m => upload_one env_demo (fst m) = Uploaded (snd m)) ms).
Proof.
  split; [reflexivity|].
  exact (file_upload_node_names_match_ids env_demo _ eq_refl).
Defined.

(** [upload_file]: the first id of a one-path [upload_files]. *)
Definition upload_file (env : Env) (file_path : string) : option string :=
  head (u_file_ids (upload_files env [file_path])).

(** X3: [upload_file] returns an id exactly when a client is configured and
    that file's upload returned it; otherwise [None]. *)
Theorem upload_file_some_iff env p fid :
  upload_file env p = Some fid <-> openai_configured env = true /\ upload_one env p = Uploaded fid.
Proof.
  unfold upload_file, upload_files. destruct (openai_configured env); simpl.
  - destruct (upload_one env p); simpl; split; intros H.
    + injection H as ->. auto.
    + destruct H as [_ H]. congruence.
    + discriminate.
    + destruct H as [_ H]. discriminate.
  - split; [discriminate | intros [H _]; discriminate].
Qed.

(** [delete_file]; [delete_raises f] says [client.files.delete(f)] raises. *)
Definition delete_file (env : Env) (delete_raises : string -> bool) (file_id : string) : bool :=
  if negb (openai_configured env) then false
  else if delete_raises file_id then false else true.

Fixpoint delete_files_loop (env : Env) (delete_raises : string -> bool)
    (file_ids : list string) (results : gmap string bool) : gmap string bool :=
  match file_ids with
  | [] => results
  | f :: fs => delete_files_loop env delete_raises fs
                 (<[f := delete_file env delete_raises f]> results)
  end.

Definition delete_files (env : Env) (delete_raises : string -> bool) (file_ids : list string)
    : gmap string bool :=
  delete_files_loop env delete_raises file_ids ∅.

Lemma delete_files_loop_lookup env dr fs results f :
  delete_files_loop env dr fs results !! f =
  if decide (f ∈ fs) then Some (delete_file env dr f) else results !! f.
Proof.
  revert results. induction fs as [|g fs IH]; intros results; cbn [delete_files_loop].
  - case_decide as Hin; [apply not_elem_of_nil in Hin; contradiction | reflexivity].
  - rewrite IH. case_decide as Hin; case_decide as Hin'.
    + reflexivity.
    + exfalso. apply Hin'. apply elem_of_cons. right. exact Hin.
    + apply elem_of_cons in Hin' as [-> | Hin']; [|contradiction].
      now rewrite lookup_insert_eq.
    + rewrite lookup_insert_ne; [reflexivity|].
      intros ->. apply Hin'. apply elem_of_cons. left. reflexivity.
Qed.

(** X4: [delete_files] has exactly one entry per given id, holding that
    id's [delete_file] outcome; without a client every entry is [false]. *)
Theorem delete_files_lookup env dr fs f :
  delete_files env dr fs !! f = (if decide (f ∈ fs) then Some (delete_file env dr f) else None)
  /\ (openai_configured env = false -> f ∈ fs -> delete_files env dr fs !! f = Some false).
Proof.
  unfold delete_files. rewrite delete_files_loop_lookup, lookup_empty.
  split; [reflexivity|]. intros Hc Hin. rewrite decide_True by exact Hin.
  unfold delete_file. now rewrite Hc.
Qed.

(** ** graph/nodes.py: [domain_detection_node] and prompts/domain_prompts.py *)

Definition ALLOWED_DOMAINS : list string :=
  ["real_estate"; "employment"; "finance"; "rental"; "insurance"; "legal_agreement"].


(** X5: a classifier reply that parses to a non-empty object without a
    [domain] key yields domain [unsupported] and no intent options, yet
    keeps the reply's confidence ([0] only when that key is absent too). *)
Theorem domain_without_key_is_unsupported env st d :
  openai_configured env = true -> openai_file_ids st <> [] ->
  classify env (openai_file_ids st) = ClsPayload d ->
  cd_domain d = None -> cls_truthy d = true ->
  let st1 := domain_detection_node env st in
  domain st1 = "unsupported" /\ intent_options st1 = []
  /\ domain_confidence st1 = Some (get_or (cd_confidence d) 0%Q)
  /\ current_step st1 = "waiting_for_intent" /\ errors st1 = errors st.
Proof.
  intros Hc Hne Hcl Hd Ht st1. subst st1.
  unfold domain_detection_node, detect_domain_with_files. cbv zeta.
  case_bool_decide; [contradiction|]. rewrite Hc. cbn [negb].
  rewrite Hcl, Ht, Hd. cbn.
  repeat split. now destruct (cd_confidence d).
Qed.

Definition env_keyless : Env :=
  mkEnv true true (fun _ => ["lease.pdf"]) (fun p => Uploaded ("file-" ++ p))
    (fun _ => ClsPayload (mkClsDict None (Some (7 # 10)) (Some "mixed terms") false))
    (fun _ _ _ _ _ => AnaNoPayload).

Lemma domain_without_key_is_unsupported_witness :
  let st := st_with_upload (initial_state "job-1" (Some "English") "domain_detection")
              ["file-lease.pdf"] [("lease.pdf", "file-lease.pdf")] ["lease.pdf"] []
              "domain_detection" in
  let st1 := domain_detection_node env_keyless st in
  domain st1 = "unsupported" /\ intent_options st1 = []
  /\ domain_confidence st1 = Some (7 # 10)%Q
  /\ current_step st1 = "waiting_for_intent" /\ errors st1 = errors st.
Proof.
  intros st st1.
  exact (domain_without_key_is_unsupported env_keyless st _ eq_refl
           ltac:(discriminate) eq_refl eq_refl eq_refl).
Defined.


(** ** graph/workflow.py: [reconstruct_state] and [create_record] *)

(** X7: when the first select fails (the [language] column is missing, or
    any store error) and the retry finds the row, the phase-2 state takes
    the row's documents, file ids, domain and confidence but sets the
    language to [English], whatever the row stores. *)
Theorem reconstruct_state_retry_defaults_language env id s fs r :
  supabase_configured env = true -> s !! id = Some r -> hd false fs = false ->
  reconstruct_state env id (mkWorld s (true :: fs)) =
  (Ok (st_with_stored (initial_state id (Some "English") "") r (Some "English")),
   mkWorld s (tl fs)).
Proof.
  intros Hsb Hr Hf. unfold reconstruct_state. rewrite Hsb.
  unfold try_except, db_select, bind, next_fault. simpl.
  destruct fs as [|[] fs]; simpl in *; try discriminate; now rewrite Hr.
Qed.

Lemma reconstruct_state_retry_defaults_language_witness :
  supabase_configured env_demo = true /\ store (world_demo []) !! "job-1" = Some row_demo
  /\ hd false (@nil bool) = false
  /\ reconstruct_state env_demo "job-1" (mkWorld (store (world_demo [])) [true]) =
     (Ok (st_with_stored (initial_state "job-1" (Some "English") "") row_demo (Some "English")),
      mkWorld (store (world_demo [])) []).
Proof.
  split; [reflexivity|]. split; [reflexivity|]. split; [reflexivity|].
  exact (reconstruct_state_retry_defaults_language env_demo "job-1" (store (world_demo [])) [] row_demo
           eq_refl eq_refl eq_refl).
Defined.

(** X8: when neither select gets the row (store errors or no such row),
    phase 2 silently starts from the defaults: no documents, no file ids,
    empty domain. *)
Theorem reconstruct_state_no_row_defaults env id w :
  store w !! id = None ->
  exists w', reconstruct_state env id w = (Ok (initial_state id (Some "English") ""), w')
    /\ store w' = store w.
Proof.
  intros Hn. unfold reconstruct_state. destruct (supabase_configured env); [|eauto].
  unfold try_except at 1. unfold try_except at 1.
  destruct (db_select_cases id w) as [[r [Hr _]] | [e H]]; [congruence|].
  rewrite (bind_Raise _ _ _ _ _ H).
  destruct (db_select_cases id (mkWorld (store w) (tl (faults w))))
    as [[r [Hr _]] | [e' H']]; [simpl in Hr; congruence|].
  rewrite (bind_Raise _ _ _ _ _ H'). eauto.
Qed.

Lemma reconstruct_state_no_row_defaults_witness :
  store (world_demo []) !! "job-2" = None
  /\ exists w', reconstruct_state env_demo "job-2" (world_demo [])
                = (Ok (initial_state "job-2" (Some "English") ""), w')
       /\ store w' = store (world_demo []).
Proof.
  split; [reflexivity|].
  exact (reconstruct_state_no_row_defaults env_demo "job-2" (world_demo []) eq_refl).
Defined.

(** X9: creating the record for an id that is already stored never changes
    the table and never raises (both inserts fail on the duplicate key). *)
Theorem create_record_existing_unchanged env id lang w r :
  store w !! id = Some r ->
  exists w', create_record env id lang w = (Ok tt, w') /\ store w' = store w.
Proof.
  intros Hr. unfold create_record. destruct (supabase_configured env); [|eauto].
  unfold try_except, db_insert, bind, next_fault.
  destruct w as [s fs]; simpl in Hr.
  destruct fs as [|[] [|[] fs]]; cbn; rewrite ?Hr; cbn; rewrite ?Hr; eauto.
Qed.

Lemma create_record_existing_unchanged_witness :
  store (world_demo []) !! "job-1" = Some row_demo
  /\ exists w', create_record env_demo "job-1" "French" (world_demo []) = (Ok tt, w')
       /\ store w' = store (world_demo []).
Proof.
  split; [reflexivity|].
  exact (create_record_existing_unchanged env_demo "job-1" "French" (world_demo []) row_demo eq_refl).
Defined.

(** X10: for a new id, when the insert with [language] fails and the retry
    goes through, the record is stored without a language. *)
Theorem create_record_retry_drops_language env id lang s fs :
  supabase_configured env = true -> s !! id = None -> hd false fs = false ->
  create_record env id lang (mkWorld s (true :: fs)) =
  (Ok tt, mkWorld (<[id := initial_row id None]> s) (tl fs)).
Proof.
  intros Hsb Hn Hf. unfold create_record. rewrite Hsb.
  unfold try_except, db_insert, bind, next_fault. simpl.
  destruct fs as [|[] fs]; simpl in *; try discriminate; now rewrite Hn.
Qed.

Lemma create_record_retry_drops_language_witness :
  supabase_configured env_demo = true /\ (∅ : gmap string Row) !! "job-3" = None
  /\ hd false (@nil bool) = false
  /\ create_record env_demo "job-3" "French" (mkWorld ∅ [true]) =
     (Ok tt, mkWorld (<[ "job-3" := initial_row "job-3" None]> ∅) []).
Proof.
  split; [reflexivity|]. split; [reflexivity|]. split; [reflexivity|].
  exact (create_record_retry_drops_language env_demo "job-3" "French" ∅ []
           eq_refl eq_refl eq_refl).
Defined.

(** ** Phases followed by [get_analysis_status] *)

Lemma create_record_fresh env id lang s :
  supabase_configured env = true -> s !! id = None ->
  create_record env id lang (mkWorld s []) =
  (Ok tt, mkWorld (<[id := initial_row id (Some lang)]> s) []).
Proof.
  intros Hsb Hn. unfold create_record. rewrite Hsb.
  unfold try_except, db_insert, bind, next_fault. simpl. now rewrite Hn.
Qed.

Lemma domain_detection_node_step env st :
  current_step (domain_detection_node env st) = "waiting_for_intent".
Proof. unfold domain_detection_node. now case_bool_decide. Qed.

Lemma get_analysis_status_stored env id s r :
  supabase_configured env = true -> s !! id = Some r ->
  get_analysis_status env id (mkWorld s []) = (Ok (status_of_row r), mkWorld s []).
Proof.
  intros Hsb Hr. unfold get_analysis_status. rewrite Hsb.
  unfold try_except, db_select, bind, next_fault. simpl. now rewrite Hr.
Qed.

(** X11: when phase 1 stops at the upload step (no PDF, no client, or no
    file uploaded) for a new id with a working store, polling afterwards
    reports [processing] at step [error] with progress 0 and no error
    message: the upload errors are never written to the row. *)
Theorem upload_error_polls_as_processing env id lang s :
  supabase_configured env = true -> s !! id = None ->
  current_step (file_upload_node env (initial_state id (Some lang) "uploading")) = "error" ->
  exists st s', run_analysis_workflow env id lang (mkWorld s []) = (Ok st, mkWorld s' [])
    /\ current_step st = "error"
    /\ get_analysis_status env id (mkWorld s' []) =
       (Ok (mkStatus "processing" "error" 0 None), mkWorld s' []).
Proof.
  intros Hsb Hn Hstep.
  set (st1 := file_upload_node env (initial_state id (Some lang) "uploading")) in *.
  set (s1 := <[id := initial_row id (Some lang)]> s).
  exists st1, (alter (row_set_step "error") id s1). split; [|split; [exact Hstep|]].
  - unfold run_analysis_workflow.
    rewrite (bind_Ok _ _ _ _ _ (create_record_fresh env id lang s Hsb Hn)).
    unfold phase_guard. apply try_Ok. fold st1.
    rewrite (bind_Ok _ _ _ _ _ (update_status_nofault env id _ s1)), Hsb, Hstep.
    reflexivity.
  - rewrite (get_analysis_status_stored env id _ (row_set_step "error" (initial_row id (Some lang))) Hsb).
    + reflexivity.
    + unfold s1. now rewrite lookup_alter_eq, lookup_insert_eq.
Qed.

Lemma upload_error_polls_as_processing_witness :
  supabase_configured env_no_pdf = true /\ (∅ : gmap string Row) !! "job-4" = None
  /\ current_step (file_upload_node env_no_pdf (initial_state "job-4" (Some "English") "uploading"))
     = "error"
  /\ exists st s', run_analysis_workflow env_no_pdf "job-4" "English" (mkWorld ∅ []) = (Ok st, mkWorld s' [])
    /\ current_step st = "error"
    /\ get_analysis_status env_no_pdf "job-4" (mkWorld s' []) =
       (Ok (mkStatus "processing" "error" 0 None), mkWorld s' []).
Proof.
  split; [reflexivity|]. split; [reflexivity|]. split; [reflexivity|].
  exact (upload_error_polls_as_processing env_no_pdf "job-4" "English" ∅ eq_refl eq_refl eq_refl).
Defined.

(** X12: when the upload step succeeds for a new id with a working store,
    polling after phase 1 reports [awaiting_intent] at 55%, with no error. *)
Theorem phase1_success_polls_awaiting_intent env id lang s :
  supabase_configured env = true -> s !! id = None ->
  current_step (file_upload_node env (initial_state id (Some lang) "uploading")) <> "error" ->
  exists st s', run_analysis_workflow env id lang (mkWorld s []) = (Ok st, mkWorld s' [])
    /\ get_analysis_status env id (mkWorld s' []) =
       (Ok (mkStatus "awaiting_intent" "waiting_for_intent" 55 None), mkWorld s' []).
Proof.
  intros Hsb Hn Hstep.
  set (st1 := file_upload_node env (initial_state id (Some lang) "uploading")) in *.
  set (st2 := domain_detection_node env st1).
  set (s1 := <[id := initial_row id (Some lang)]> s).
  set (s2 := alter (row_set_step (current_step st1)) id s1).
  set (s3 := alter (row_set_step "waiting_for_intent") id s2).
  exists st2, (alter (row_set_domain_info st2) id s3). split.
  - unfold run_analysis_workflow.
    rewrite (bind_Ok _ _ _ _ _ (create_record_fresh env id lang s Hsb Hn)).
    unfold phase_guard. apply try_Ok. fold st1.
    rewrite (bind_Ok _ _ _ _ _ (update_status_nofault env id _ s1)), Hsb.
    apply String.eqb_neq in Hstep. rewrite Hstep. fold st2 s2.
    rewrite (domain_detection_node_step env st1 : current_step st2 = _).
    rewrite (bind_Ok _ _ _ _ _ (update_status_nofault env id _ s2)), Hsb.
    fold s3. reflexivity.
  - rewrite (get_analysis_status_stored env id _
               (row_set_domain_info st2 (row_set_step "waiting_for_intent"
                  (row_set_step (current_step st1) (initial_row id (Some lang))))) Hsb).
    + reflexivity.
    + unfold s3, s2, s1. now rewrite !lookup_alter_eq, lookup_insert_eq.
Qed.

Lemma phase1_success_polls_awaiting_intent_witness :
  supabase_configured env_demo = true /\ (∅ : gmap string Row) !! "job-5" = None
  /\ current_step (file_upload_node env_demo (initial_state "job-5" (Some "English") "uploading"))
     <> "error"
  /\ exists st s', run_analysis_workflow env_demo "job-5" "English" (mkWorld ∅ []) = (Ok st, mkWorld s' [])
    /\ get_analysis_status env_demo "job-5" (mkWorld s' []) =
       (Ok (mkStatus "awaiting_intent" "waiting_for_intent" 55 None), mkWorld s' []).
Proof.
  split; [reflexivity|]. split; [reflexivity|]. split; [discriminate|].
  exact (phase1_success_polls_awaiting_intent env_demo "job-5" "English" ∅ eq_refl eq_refl
           ltac:(discriminate)).
Defined.

(** X13: with a working store, polling after phase 2 on a stored record
    reports [complete] at 100%, and returns whatever error message the
    record already held: phase 2 never clears it. *)
Theorem phase2_polls_complete_keeps_error env id intent s r :
  supabase_configured env = true -> s !! id = Some r ->
  exists st s', continue_analysis_workflow env id intent (mkWorld s []) = (Ok st, mkWorld s' [])
    /\ get_analysis_status env id (mkWorld s' []) =
       (Ok (mkStatus "complete" "complete" 100 (r_error r)), mkWorld s' []).
Proof.
  intros Hsb Hr.
  pose proof (continue_analysis_workflow_nofault env id intent s r Hsb Hr) as H.
  cbv zeta in H. do 2 eexists. split; [exact H|].
  rewrite (get_analysis_status_stored env id _ (row_set_step "complete" (persist_row
             (analysis_node env (st_with_intent (st_with_stored
                (initial_state id (Some "English") "") r (r_language r)) intent))
             (row_set_step "persist" r))) Hsb).
  - reflexivity.
  - now rewrite !lookup_alter_eq, Hr.
Qed.

Definition row_failed : Row := row_set_error "APIError: request to the store failed" row_demo.

Lemma phase2_polls_complete_keeps_error_witness :
  supabase_configured env_demo = true /\ ({[ "job-1" := row_failed ]} : gmap string Row) !! "job-1" = Some row_failed
  /\ exists st s', continue_analysis_workflow env_demo "job-1" "tenant"
                     (mkWorld {[ "job-1" := row_failed ]} []) = (Ok st, mkWorld s' [])
    /\ get_analysis_status env_demo "job-1" (mkWorld s' []) =
       (Ok (mkStatus "complete" "complete" 100 (r_error row_failed)), mkWorld s' []).
Proof.
  split; [reflexivity|]. split; [reflexivity|].
  exact (phase2_polls_complete_keeps_error env_demo "job-1" "tenant" {[ "job-1" := row_failed ]} row_failed
           eq_refl eq_refl).
Defined.

(** ** api/routes/analysis.py: [select_intent] validation *)

(** X14: [select_intent] rejects a missing database and an [other] intent
    without custom text before any store call, and turns a failing update
    into an HTTP 500 carrying the store's message; in none of these cases
    is the table changed. *)
Theorem select_intent_rejections env id req w :
  (supabase_configured env = false ->
   select_intent env id req w = (Raise "HTTP 500: Database not configured", w))
  /\ (supabase_configured env = true -> intent_id req = "other" ->
      str_truthy (req_custom_intent req) = false ->
      select_intent env id req w =
      (Raise "HTTP 400: Custom intent required when selecting 'Other'", w))
  /\ (supabase_configured env = true ->
      (intent_id req <> "other" \/ str_truthy (req_custom_intent req) = true) ->
      hd false (faults w) = true ->
      select_intent env id req w =
      (Raise ("HTTP 500: " ++ db_error), mkWorld (store w) (tl (faults w)))).
Proof.
  unfold select_intent. repeat split.
  - intros Hsb. now rewrite Hsb.
  - intros Hsb Ho Hc. rewrite Hsb, Ho, Hc. reflexivity.
  - intros Hsb Hv Hf. rewrite Hsb. simpl.
    assert (Hok : (String.eqb (intent_id req) "other"
                   && negb (str_truthy (req_custom_intent req)))%bool = false).
    { destruct Hv as [Hv | Hv].
      - apply String.eqb_neq in Hv. now rewrite Hv.
      - rewrite Hv. now destruct (String.eqb _ _). }
    rewrite Hok. unfold try_except, bind, db_update, next_fault.
    destruct w as [s [|[] fs]]; simpl in *; try discriminate. reflexivity.
Qed.

(** ** prompts/domain_prompts.py: [DOMAIN_TAXONOMY] with its descriptions
    and labels (the [keywords] lists are read by no modelled function) *)

Record IntentOption := mkIntentOption {
  io_id : string;
  io_label : string;
  io_description : string
}.

Record DomainInfo := mkDomainInfo {
  di_description : string;
  di_intents : list IntentOption
}.

Definition reviewing_option : IntentOption :=
  mkIntentOption "reviewing" "I am reviewing for someone else"
    "You are helping someone understand this document".

Definition other_option : IntentOption :=
  mkIntentOption "other" "Other" "My situation is different".

Definition DOMAIN_TAXONOMY_FULL : list (string * DomainInfo) :=
  [("real_estate", mkDomainInfo "Real Estate Documents"
      [mkIntentOption "buyer" "I am buying this property"
         "You want to purchase and will be the new owner";
       mkIntentOption "seller" "I am selling this property"
         "You own the property and are transferring ownership";
       reviewing_option; other_option]);
   ("rental", mkDomainInfo "Rental & Lease Agreements"
      [mkIntentOption "tenant" "I am the tenant signing this lease"
         "You will be renting and living in the property";
       mkIntentOption "landlord" "I am the landlord/property owner"
         "You own the property and are leasing it out";
       reviewing_option; other_option]);
   ("employment", mkDomainInfo "Employment Contracts"
      [mkIntentOption "employee" "I am the employee signing this contract"
         "You are being hired and will work for this company";
       mkIntentOption "employer" "I am the employer/company"
         "You are hiring and this is your contract";
       reviewing_option; other_option]);
   ("finance", mkDomainInfo "Financial Documents"
      [mkIntentOption "borrower" "I am the borrower" "You are taking the loan or credit";
       mkIntentOption "lender" "I am the lender/institution"
         "You are providing the loan or credit";
       reviewing_option; other_option]);
   ("insurance", mkDomainInfo "Insurance Policies"
      [mkIntentOption "policyholder" "I am buying/reviewing this policy"
         "You are the one being insured";
       mkIntentOption "beneficiary" "I am a beneficiary"
         "You are named as a beneficiary on this policy";
       reviewing_option; other_option]);
   ("legal_agreement", mkDomainInfo "Legal Agreements (NDA, Service Contracts, etc.)"
      [mkIntentOption "party_a" "I am signing/agreeing to this"
         "You are one of the parties entering this agreement";
       mkIntentOption "party_receiving" "I am the party receiving services"
         "You are receiving services or goods under this agreement";
       reviewing_option; other_option])].

(** [k in d] followed by [d[k]]. *)
Fixpoint assoc_find {V} (k : string) (d : list (string * V)) : option V :=
  match d with
  | [] => None
  | (k', v) :: d' => if String.eqb k k' then Some v else assoc_find k d'
  end.

(** [_get_intent_description] (a method of [AnalysisService]). *)
Definition _get_intent_description (dom intent : string) : string :=
  let intents := get_or (option_map di_intents (assoc_find dom DOMAIN_TAXONOMY_FULL)) [] in
  match List.find (fun i => String.eqb (io_id i) intent) intents with
  | Some i => "(" ++ io_description i ++ ")"
  | None => ""
  end.

Lemma assoc_get_map {V W} (g : V -> W) k (d : list (string * V)) dflt :
  assoc_get k (map (fun p => (fst p, g (snd p))) d) dflt
  = get_or (option_map g (assoc_find k d)) dflt.
Proof.
  induction d as [|[k' v] d IH]; simpl; [reflexivity|].
  destruct (String.eqb k k'); [reflexivity | exact IH].
Qed.

(** The intent ids of the full table are the ones [domain_detection_node]
    offers. *)
Lemma taxonomy_ids k :
  assoc_get k DOMAIN_TAXONOMY [] =
  get_or (option_map (fun i => map io_id (di_intents i)) (assoc_find k DOMAIN_TAXONOMY_FULL)) [].
Proof.
  rewrite <- (assoc_get_map (fun i => map io_id (di_intents i))). reflexivity.
Qed.

(** X15: the analysis prompt describes the selected intent exactly when it
    is one of the ids offered for the domain; a custom intent (typed under
    [other]) or an intent of another domain gets the empty description. *)
Theorem intent_description_iff_offered dom intent :
  _get_intent_description dom intent <> ""
  <-> In intent (assoc_get dom DOMAIN_TAXONOMY []).
Proof.
  rewrite taxonomy_ids. unfold _get_intent_description.
  destruct (assoc_find dom DOMAIN_TAXONOMY_FULL) as [info|]; simpl; [|tauto].
  induction (di_intents info) as [|i is IH]; simpl; [tauto|].
  destruct (String.eqb_spec (io_id i) intent) as [-> | Hne].
  - split; [auto | intros _; discriminate].
  - rewrite IH. split; [auto | intros [H | H]; [congruence | exact H]].
Qed.

(** ** api/routes/analysis.py: the read routes

    An [HTTPException] is a raised message starting with ["HTTP "] (as in
    [select_intent]); [except HTTPException: raise] followed by
    [except Exception as e:] is [http_reraise]. *)

Definition http_reraise {A} (e : string) : M A :=
  if String.prefix "HTTP " e then raise e else raise ("HTTP 500: " ++ e).

Record DomainDetectionResult := mkDomainDetectionResult {
  ddr_domain : string;
  ddr_domain_description : string;
  ddr_domain_confidence : Q;
  ddr_is_supported : bool;
  ddr_intents : list IntentOption;
  ddr_allowed_domains : option (list string)
}.

(** [get_analysis_intents]: a stored row is a non-empty dict, so
    [if result.data] always holds; building the result with a null
    [domain_confidence] fails pydantic's [float] validation inside the
    [try]. *)
Definition get_analysis_intents (env : Env) (id : string) : M DomainDetectionResult :=
  if supabase_configured env then
    try_except
      (let! r := db_select id in
       let dom := r_domain r in
       match (if String.eqb dom "" then None else assoc_find dom DOMAIN_TAXONOMY_FULL) with
       | Some info =>
           match r_domain_confidence r with
           | Some c => ret (mkDomainDetectionResult dom (di_description info) c true
                              (di_intents info) None)
           | None => raise "ValidationError: domain_confidence: Input should be a valid number"
           end
       | None => ret (mkDomainDetectionResult "unsupported" "Unsupported document type" 0 false
                        [] (Some ALLOWED_DOMAINS))
       end)
      (fun e => raise ("HTTP 500: " ++ e))
  else raise "HTTP 404: Analysis not found".

(** The two dict shapes returned by [get_analysis_results] (the first has
    ["status": "processing"], the second ["status": "complete"]);
    [created_at] is the column filled by the database. *)
Inductive AnalysisResults :=
| ResProcessing (rid step : string) (progress : Z)
| ResComplete (rid dom intent : string) (overall_score : Z)
    (score_components : option Breakdown) (document_summary : option string)
    (key_terms : list string) (main_obligations : option (list string))
    (red_flags : list string) (document_names : list string) (created_at : string).

Definition get_analysis_results (env : Env) (created_at : string -> string) (id : string)
    : M AnalysisResults :=
  if negb (supabase_configured env) then raise "HTTP 500: Database not configured" else
  try_except
    (let! r := db_select id in
     let step := r_current_step r in
     if negb (String.eqb step "complete") then
       ret (ResProcessing (r_id r) step (calculate_progress step))
     else
       ret (ResComplete (r_id r) (r_domain r) (r_intent r) (r_overall_score r)
              (r_score_components r) (r_document_summary r) (r_key_terms r)
              (r_main_obligations r) (r_red_flags r) (r_document_names r)
              (created_at (r_id r))))
    http_reraise.

(** [next((f for f in red_flags if f["id"] == finding_id), None)];
    [flag_id f] is [f["id"]], [None] when the key is missing. *)
Fixpoint find_finding (flag_id : string -> option string) (finding_id : string)
    (fs : list string) : M (option string) :=
  match fs with
  | [] => ret None
  | f :: fs' =>
      match flag_id f with
      | None => raise "'id'"
      | Some i => if String.eqb i finding_id then ret (Some f)
                  else find_finding flag_id finding_id fs'
      end
  end.

Definition get_finding_detail (env : Env) (flag_id : string -> option string)
    (id finding_id : string) : M string :=
  if negb (supabase_configured env) then raise "HTTP 500: Database not configured" else
  try_except
    (let! r := db_select id in
     let! finding := find_finding flag_id finding_id (r_red_flags r) in
     match finding with
     | Some f => ret f
     | None => raise "HTTP 404: Finding not found"
     end)
    http_reraise.

Lemma db_select_stored id s r :
  s !! id = Some r -> db_select id (mkWorld s []) = (Ok r, mkWorld s []).
Proof. intros Hr. unfold db_select, bind, next_fault. simpl. now rewrite Hr. Qed.

Lemma db_select_absent id s :
  s !! id = None ->
  db_select id (mkWorld s []) =
  (Raise "APIError: JSON object requested, multiple (or no) rows returned", mkWorld s []).
Proof. intros Hn. unfold db_select, bind, next_fault. simpl. now rewrite Hn. Qed.

(** X16: for an id with no record, the three read routes answer HTTP 500
    with the store's message (the 404 they write is never reached), while
    [get_analysis_status] answers [pending]. *)
Theorem read_routes_missing_record env created_at flag_id id fid s :
  supabase_configured env = true -> s !! id = None ->
  let e := "HTTP 500: APIError: JSON object requested, multiple (or no) rows returned" in
  get_analysis_intents env id (mkWorld s []) = (Raise e, mkWorld s [])
  /\ get_analysis_results env created_at id (mkWorld s []) = (Raise e, mkWorld s [])
  /\ get_finding_detail env flag_id id fid (mkWorld s []) = (Raise e, mkWorld s [])
  /\ get_analysis_status env id (mkWorld s []) = (Ok pending_status, mkWorld s []).
Proof.
  intros Hsb Hn e. pose proof (db_select_absent id s Hn) as Hs.
  unfold get_analysis_intents, get_analysis_results, get_finding_detail,
    get_analysis_status.
  rewrite !Hsb. cbn [negb].
  split; [|split; [|split]];
    try (erewrite try_Raise; [reflexivity | apply bind_Raise; exact Hs]).
  1,2: erewrite try_Raise; [| apply bind_Raise; exact Hs]; unfold http_reraise; cbv; reflexivity.
  erewrite bind_Ok; [| erewrite try_Raise; [| apply bind_Raise; exact Hs]; reflexivity].
  reflexivity.
Qed.

Lemma read_routes_missing_record_witness :
  supabase_configured env_demo = true /\ (∅ : gmap string Row) !! "job-9" = None
  /\ (let e := "HTTP 500: APIError: JSON object requested, multiple (or no) rows returned" in
      get_analysis_intents env_demo "job-9" (mkWorld ∅ []) = (Raise e, mkWorld ∅ [])
      /\ get_analysis_results env_demo (fun _ => "2026-01-01") "job-9" (mkWorld ∅ [])
         = (Raise e, mkWorld ∅ [])
      /\ get_finding_detail env_demo (fun f => Some f) "job-9" "rf-1" (mkWorld ∅ [])
         = (Raise e, mkWorld ∅ [])
      /\ get_analysis_status env_demo "job-9" (mkWorld ∅ []) = (Ok pending_status, mkWorld ∅ [])).
Proof.
  split; [reflexivity|]. split; [reflexivity|].
  exact (read_routes_missing_record env_demo (fun _ => "2026-01-01") (fun f => Some f)
           "job-9" "rf-1" ∅ eq_refl eq_refl).
Defined.

Lemma find_finding_ids flag_id fid fs w :
  Forall (fun f => flag_id f <> None) fs ->
  find_finding flag_id fid fs w = (Ok (List.find (fun f => bool_decide (flag_id f = Some fid)) fs), w).
Proof.
  intros Hall. induction Hall as [|f fs Hf Hall IH]; simpl; [reflexivity|].
  destruct (flag_id f) as [i|] eqn:Ei; [|contradiction].
  destruct (String.eqb_spec i fid) as [-> | Hne].
  - rewrite bool_decide_eq_true_2 by reflexivity. reflexivity.
  - rewrite bool_decide_eq_false_2 by congruence. exact IH.
Qed.

(** X17: when every red flag of the stored record has an [id],
    [get_finding_detail] returns the first flag with the requested id, and
    otherwise the HTTP 404 [Finding not found] unchanged (not turned into a
    500 by the outer handler). *)
Theorem get_finding_detail_first_match env flag_id id fid s r :
  supabase_configured env = true -> s !! id = Some r ->
  Forall (fun f => flag_id f <> None) (r_red_flags r) ->
  get_finding_detail env flag_id id fid (mkWorld s []) =
  (match List.find (fun f => bool_decide (flag_id f = Some fid)) (r_red_flags r) with
   | Some f => Ok f
   | None => Raise "HTTP 404: Finding not found"
   end, mkWorld s []).
Proof.
  intros Hsb Hr Hall. unfold get_finding_detail. rewrite Hsb. cbn [negb].
  unfold try_except. rewrite (bind_Ok _ _ _ _ _ (db_select_stored id s r Hr)).
  rewrite (bind_Ok _ _ _ _ _ (find_finding_ids flag_id fid _ (mkWorld s []) Hall)).
  destruct (List.find _ _); reflexivity.
Qed.

Definition row_flags : Row :=
  mkRow "job-1" ["lease.pdf"] "rental" (Some (9 # 10)) "tenant" None 40 None None None []
    None ["rf-1"; "rf-2"] [] [] None None ["file-lease.pdf"] "complete" None.

Lemma get_finding_detail_first_match_witness :
  supabase_configured env_demo = true
  /\ ({[ "job-1" := row_flags ]} : gmap string Row) !! "job-1" = Some row_flags
  /\ Forall (fun f => Some f <> None) (r_red_flags row_flags)
  /\ get_finding_detail env_demo (fun f => Some f) "job-1" "rf-2"
       (mkWorld {[ "job-1" := row_flags ]} []) =
     (match List.find (fun f => bool_decide (Some f = Some "rf-2")) (r_red_flags row_flags) with
      | Some f => Ok f
      | None => Raise "HTTP 404: Finding not found"
      end, mkWorld {[ "job-1" := row_flags ]} []).
Proof.
  assert (Hall : Forall (fun f => Some f <> None) (r_red_flags row_flags))
    by (repeat constructor; discriminate).
  split; [reflexivity|]. split; [reflexivity|]. split; [exact Hall|].
  exact (get_finding_detail_first_match env_demo (fun f => Some f) "job-1" "rf-2"
           {[ "job-1" := row_flags ]} row_flags eq_refl eq_refl Hall).
Defined.

(** X18: for a record not yet at [complete], [get_analysis_results]
    exposes only the id, the step and the progress, the same step and
    progress [get_analysis_status] reports (its status is always
    [processing], also at [waiting_for_intent] where the status route says
    [awaiting_intent]). *)
Theorem results_processing_matches_status env created_at id s r :
  supabase_configured env = true -> s !! id = Some r -> r_current_step r <> "complete" ->
  get_analysis_results env created_at id (mkWorld s []) =
  (Ok (ResProcessing (r_id r) (as_current_step (status_of_row r))
         (as_progress (status_of_row r))), mkWorld s [])
  /\ get_analysis_status env id (mkWorld s []) = (Ok (status_of_row r), mkWorld s []).
Proof.
  intros Hsb Hr Hc. split; [|exact (get_analysis_status_stored env id s r Hsb Hr)].
  unfold get_analysis_results. rewrite Hsb. cbn [negb].
  unfold try_except. rewrite (bind_Ok _ _ _ _ _ (db_select_stored id s r Hr)).
  apply String.eqb_neq in Hc. rewrite Hc. reflexivity.
Qed.

Lemma results_processing_matches_status_witness :
  supabase_configured env_demo = true
  /\ store (world_demo []) !! "job-1" = Some row_demo
  /\ r_current_step row_demo <> "complete"
  /\ get_analysis_results env_demo (fun _ => "2026-01-01") "job-1" (world_demo []) =
     (Ok (ResProcessing (r_id row_demo) (as_current_step (status_of_row row_demo))
            (as_progress (status_of_row row_demo))), world_demo [])
  /\ get_analysis_status env_demo "job-1" (world_demo []) = (Ok (status_of_row row_demo), world_demo []).
Proof.
  split; [reflexivity|]. split; [reflexivity|]. split; [discriminate|].
  exact (results_processing_matches_status env_demo (fun _ => "2026-01-01") "job-1"
           (store (world_demo [])) row_demo eq_refl eq_refl ltac:(discriminate)).
Defined.

Lemma domain_detection_node_options env st :
  let st1 := domain_detection_node env st in
  intent_options st1 = assoc_get (domain st1) DOMAIN_TAXONOMY []
  /\ exists c, domain_confidence st1 = Some c.
Proof.
  unfold domain_detection_node. case_bool_decide; simpl; [eauto|].
  split; [reflexivity|]. destruct (cd_confidence _); simpl; eauto.
Qed.

Lemma taxonomy_full_nonempty k info :
  assoc_find k DOMAIN_TAXONOMY_FULL = Some info -> di_intents info <> [].
Proof.
  simpl. repeat (destruct (String.eqb k _); [injection 1 as <-; discriminate|]).
  discriminate.
Qed.

(** The intents route on a stored row with a confidence: the offered ids
    are the taxonomy's ids for the stored domain. *)
Lemma get_analysis_intents_stored env id s r c :
  supabase_configured env = true -> s !! id = Some r -> r_domain_confidence r = Some c ->
  exists d, get_analysis_intents env id (mkWorld s []) = (Ok d, mkWorld s [])
    /\ map io_id (ddr_intents d) = assoc_get (r_domain r) DOMAIN_TAXONOMY []
    /\ (ddr_is_supported d = true <-> assoc_get (r_domain r) DOMAIN_TAXONOMY [] <> []).
Proof.
  intros Hsb Hr Hc. unfold get_analysis_intents. rewrite Hsb.
  unfold try_except. rewrite (bind_Ok _ _ _ _ _ (db_select_stored id s r Hr)).
  rewrite taxonomy_ids.
  destruct (String.eqb_spec (r_domain r) "") as [-> | Hne].
  - eexists. split; [reflexivity|]. simpl. split; [reflexivity|]. split; congruence.
  - destruct (assoc_find (r_domain r) DOMAIN_TAXONOMY_FULL) as [info|] eqn:Ef; simpl.
    + rewrite Hc. eexists. split; [reflexivity|]. simpl. split; [reflexivity|].
      split; [intros _ | reflexivity].
      pose proof (taxonomy_full_nonempty _ _ Ef) as Hne'.
      destruct (di_intents info); simpl; [contradiction | discriminate].
    + eexists. split; [reflexivity|]. simpl. split; [reflexivity|]. split; congruence.
Qed.

(** Phase 1 with a working store, for a new id whose upload step succeeds. *)
Lemma phase1_success_nofault env id lang s :
  supabase_configured env = true -> s !! id = None ->
  current_step (file_upload_node env (initial_state id (Some lang) "uploading")) <> "error" ->
  let st1 := file_upload_node env (initial_state id (Some lang) "uploading") in
  let st2 := domain_detection_node env st1 in
  run_analysis_workflow env id lang (mkWorld s []) =
  (Ok st2, mkWorld (alter (row_set_domain_info st2) id
                     (alter (row_set_step "waiting_for_intent") id
                        (alter (row_set_step (current_step st1)) id
                           (<[id := initial_row id (Some lang)]> s)))) []).
Proof.
  intros Hsb Hn Hstep st1 st2. change (current_step st1 <> "error") in Hstep.
  unfold run_analysis_workflow.
  rewrite (bind_Ok _ _ _ _ _ (create_record_fresh env id lang s Hsb Hn)).
  unfold phase_guard. apply try_Ok. fold st1.
  rewrite (bind_Ok _ _ _ _ _ (update_status_nofault env id _ _)), Hsb.
  apply String.eqb_neq in Hstep. rewrite Hstep. fold st2.
  rewrite (domain_detection_node_step env st1 : current_step st2 = _).
  rewrite (bind_Ok _ _ _ _ _ (update_status_nofault env id _ _)), Hsb.
  reflexivity.
Qed.

(** X19: after a successful phase 1 with a working store, the intents route
    offers exactly the intent ids phase 1 put in [intent_options], and
    calls the domain supported exactly when there is at least one. *)
Theorem phase1_intents_route_matches_options env id lang s :
  supabase_configured env = true -> s !! id = None ->
  current_step (file_upload_node env (initial_state id (Some lang) "uploading")) <> "error" ->
  exists st s' d, run_analysis_workflow env id lang (mkWorld s []) = (Ok st, mkWorld s' [])
    /\ get_analysis_intents env id (mkWorld s' []) = (Ok d, mkWorld s' [])
    /\ map io_id (ddr_intents d) = intent_options st
    /\ (ddr_is_supported d = true <-> intent_options st <> []).
Proof.
  intros Hsb Hn Hstep.
  pose proof (phase1_success_nofault env id lang s Hsb Hn Hstep) as H. cbv zeta in H.
  set (st1 := file_upload_node env (initial_state id (Some lang) "uploading")) in *.
  set (st2 := domain_detection_node env st1) in *.
  destruct (domain_detection_node_options env st1) as [Hopt [c Hc]]. fold st2 in Hopt, Hc.
  set (r := row_set_domain_info st2 (row_set_step "waiting_for_intent"
              (row_set_step (current_step st1) (initial_row id (Some lang))))).
  destruct (get_analysis_intents_stored env id
              (alter (row_set_domain_info st2) id
                 (alter (row_set_step "waiting_for_intent") id
                    (alter (row_set_step (current_step st1)) id
                       (<[id := initial_row id (Some lang)]> s)))) r c Hsb)
    as [d [Hd [Hids Hsup]]].
  - now rewrite !lookup_alter_eq, lookup_insert_eq.
  - exact Hc.
  - eexists st2, _, d. split; [exact H|]. split; [exact Hd|].
    rewrite Hopt. split; [exact Hids | exact Hsup].
Qed.

Lemma phase1_intents_route_matches_options_witness :
  supabase_configured env_demo = true /\ (∅ : gmap string Row) !! "job-5" = None
  /\ current_step (file_upload_node env_demo (initial_state "job-5" (Some "English") "uploading"))
     <> "error"
  /\ exists st s' d, run_analysis_workflow env_demo "job-5" "English" (mkWorld ∅ [])
                       = (Ok st, mkWorld s' [])
    /\ get_analysis_intents env_demo "job-5" (mkWorld s' []) = (Ok d, mkWorld s' [])
    /\ map io_id (ddr_intents d) = intent_options st
    /\ (ddr_is_supported d = true <-> intent_options st <> []).
Proof.
  split; [reflexivity|]. split; [reflexivity|]. split; [discriminate|].
  exact (phase1_intents_route_matches_options env_demo "job-5" "English" ∅ eq_refl eq_refl
           ltac:(discriminate)).
Defined.

(** ** Which records the phases touch *)

(** [m] changes no record but the one of [id], whatever the fault script. *)
Definition keeps_others {A} (id : string) (m : M A) : Prop :=
  forall w k, k <> id -> store (snd (m w)) !! k = store w !! k.

Section KeepsOthers.

Context (id : string).

Lemma ret_keeps {A} (a : A) : keeps_others id (ret a).
Proof. intros w k _. reflexivity. Qed.

Lemma raise_keeps {A} e : keeps_others id (@raise A e).
Proof. intros w k _. reflexivity. Qed.

Lemma bind_keeps {A B} (m : M A) (f : A -> M B) :
  keeps_others id m -> (forall a, keeps_others id (f a)) -> keeps_others id (bind m f).
Proof.
  intros Hm Hf w k Hk. unfold bind. specialize (Hm w k Hk).
  destruct (m w) as [[a | e] w'] eqn:E; simpl in *; [|exact Hm].
  rewrite (Hf a w' k Hk). exact Hm.
Qed.

Lemma try_keeps {A} (m : M A) h :
  keeps_others id m -> (forall e, keeps_others id (h e)) -> keeps_others id (try_except m h).
Proof.
  intros Hm Hh w k Hk. unfold try_except. specialize (Hm w k Hk).
  destruct (m w) as [[a | e] w'] eqn:E; simpl in *; [exact Hm|].
  rewrite (Hh e w' k Hk). exact Hm.
Qed.

Lemma if_keeps {A} (b : bool) (m1 m2 : M A) :
  keeps_others id m1 -> keeps_others id m2 -> keeps_others id (if b then m1 else m2).
Proof. destruct b; auto. Qed.

Lemma next_fault_keeps : keeps_others id next_fault.
Proof. intros [s [|b fs]] k _; reflexivity. Qed.

Lemma db_update_keeps_others f : keeps_others id (db_update id f).
Proof.
  apply bind_keeps; [apply next_fault_keeps|]. intros b.
  apply if_keeps; [apply raise_keeps|]. intros w k Hk. simpl.
  now rewrite lookup_alter_ne by congruence.
Qed.

Lemma db_insert_keeps_others r : keeps_others id (db_insert id r).
Proof.
  apply bind_keeps; [apply next_fault_keeps|]. intros b.
  apply if_keeps; [apply raise_keeps|]. intros w k Hk. simpl.
  destruct (store w !! id); simpl; [reflexivity|].
  now rewrite lookup_insert_ne by congruence.
Qed.

Lemma db_select_keeps_others : keeps_others id (db_select id).
Proof.
  apply bind_keeps; [apply next_fault_keeps|]. intros b.
  apply if_keeps; [apply raise_keeps|]. intros w k Hk. simpl.
  destruct (store w !! id); reflexivity.
Qed.

End KeepsOthers.

Lemma bind_keeps_post {A B} id (P : A -> Prop) (m : M A) (f : A -> M B) :
  keeps_others id m -> (forall w a w', m w = (Ok a, w') -> P a) ->
  (forall a, P a -> keeps_others id (f a)) -> keeps_others id (bind m f).
Proof.
  intros Hm HP Hf w k Hk. unfold bind. specialize (Hm w k Hk).
  destruct (m w) as [[a | e] w'] eqn:E; simpl in *; [|exact Hm].
  rewrite (Hf a (HP _ _ _ E) w' k Hk). exact Hm.
Qed.

Lemma persist_node_keeps_id env st id :
  analysis_id st = id -> keeps_others id (persist_node env st).
Proof.
  intros <-. unfold persist_node. apply bind_keeps; [|intros; apply ret_keeps].
  apply if_keeps; [|apply ret_keeps].
  apply try_keeps; [apply db_update_keeps_others | intros; apply ret_keeps].
Qed.

Lemma analysis_node_id env st : analysis_id (analysis_node env st) = analysis_id st.
Proof. unfold analysis_node. now case_bool_decide. Qed.

Ltac keeps_step :=
  repeat (intros; cbv zeta; unfold update_status, create_record, phase_guard,
            reconstruct_state;
          first [ apply persist_node_keeps_id; rewrite analysis_node_id; assumption
                | apply db_update_keeps_others | apply db_insert_keeps_others
                | apply db_select_keeps_others | apply ret_keeps | apply raise_keeps
                | apply bind_keeps | apply try_keeps | apply if_keeps ]).

Lemma run_analysis_workflow_keeps env id lang :
  keeps_others id (run_analysis_workflow env id lang).
Proof. unfold run_analysis_workflow. keeps_step. Qed.

Lemma reconstruct_state_keeps env id : keeps_others id (reconstruct_state env id).
Proof. keeps_step. Qed.

Lemma continue_analysis_workflow_keeps env id intent :
  keeps_others id (continue_analysis_workflow env id intent).
Proof.
  unfold continue_analysis_workflow.
  apply (bind_keeps_post id (fun st => analysis_id st = id));
    [apply reconstruct_state_keeps | | ].
  - intros w a w' H. destruct (reconstruct_state_cases env id w) as [st0 [w1 [H1 [_ Hst0]]]].
    rewrite H1 in H. injection H as <- _.
    destruct Hst0 as [-> | [r [l [_ ->]]]]; reflexivity.
  - intros a Ha. keeps_step.
Qed.

Lemma select_intent_keeps env id req : keeps_others id (select_intent env id req).
Proof. unfold select_intent. keeps_step. Qed.

(** X20: whatever the store faults, phase 1, the intent selection and
    phase 2 for an id never change the record of any other id. *)
Theorem workflow_touches_only_own_record env id lang req intent w k :
  k <> id ->
  store (snd (run_analysis_workflow env id lang w)) !! k = store w !! k
  /\ store (snd (select_intent env id req w)) !! k = store w !! k
  /\ store (snd (continue_analysis_workflow env id intent w)) !! k = store w !! k.
Proof.
  intros Hk. split; [|split].
  - exact (run_analysis_workflow_keeps env id lang w k Hk).
  - exact (select_intent_keeps env id req w k Hk).
  - exact (continue_analysis_workflow_keeps env id intent w k Hk).
Qed.

Lemma workflow_touches_only_own_record_witness :
  "job-2" <> "job-1"
  /\ store (snd (run_analysis_workflow env_demo "job-1" "English" (world_demo [false; true])))
       !! "job-2" = store (world_demo [false; true]) !! "job-2"
  /\ store (snd (select_intent env_demo "job-1" (mkIntentRequest "tenant" None)
                   (world_demo [false; true]))) !! "job-2"
     = store (world_demo [false; true]) !! "job-2"
  /\ store (snd (continue_analysis_workflow env_demo "job-1" "tenant" (world_demo [false; true])))
       !! "job-2" = store (world_demo [false; true]) !! "job-2".
Proof.
  assert (Hk : "job-2" <> "job-1") by discriminate.
  split; [exact Hk|].
  exact (workflow_touches_only_own_record env_demo "job-1" "English"
           (mkIntentRequest "tenant" None) "tenant" (world_demo [false; true]) "job-2" Hk).
Defined.

(** ** Phase 2 never creates a record *)

Definition preserves {A} (P : gmap string Row -> Prop) (m : M A) : Prop :=
  forall w, P (store w) -> P (store (snd (m w))).

Section Preserves.

Context (P : gmap string Row -> Prop).

Lemma ret_preserves {A} (a : A) : preserves P (ret a).
Proof. intros w H. exact H. Qed.

Lemma raise_preserves {A} e : preserves P (@raise A e).
Proof. intros w H. exact H. Qed.

Lemma bind_preserves {A B} (m : M A) (f : A -> M B) :
  preserves P m -> (forall a, preserves P (f a)) -> preserves P (bind m f).
Proof.
  intros Hm Hf w H. unfold bind. specialize (Hm w H).
  destruct (m w) as [[a | e] w'] eqn:E; simpl in *; [exact (Hf a w' Hm) | exact Hm].
Qed.

Lemma try_preserves {A} (m : M A) h :
  preserves P m -> (forall e, preserves P (h e)) -> preserves P (try_except m h).
Proof.
  intros Hm Hh w H. unfold try_except. specialize (Hm w H).
  destruct (m w) as [[a | e] w'] eqn:E; simpl in *; [exact Hm | exact (Hh e w' Hm)].
Qed.

Lemma if_preserves {A} (b : bool) (m1 m2 : M A) :
  preserves P m1 -> preserves P m2 -> preserves P (if b then m1 else m2).
Proof. destruct b; auto. Qed.

Lemma next_fault_preserves : preserves P next_fault.
Proof. intros [s [|b fs]] H; exact H. Qed.

Lemma db_select_preserves id : preserves P (db_select id).
Proof.
  apply bind_preserves; [apply next_fault_preserves|]. intros b.
  apply if_preserves; [apply raise_preserves|]. intros w H. simpl.
  destruct (store w !! id); exact H.
Qed.

End Preserves.

Lemma db_update_absent id id' f : preserves (fun s => s !! id = None) (db_update id' f).
Proof.
  apply bind_preserves; [apply next_fault_preserves|]. intros b.
  apply if_preserves; [apply raise_preserves|]. intros w H. simpl.
  destruct (decide (id = id')) as [-> | Hne].
  - now rewrite lookup_alter_None.
  - now rewrite lookup_alter_ne by congruence.
Qed.

Ltac absent_step :=
  repeat (intros; cbv zeta; unfold update_status, phase_guard, persist_node,
            reconstruct_state;
          first [ apply db_update_absent | apply db_select_preserves
                | apply ret_preserves | apply raise_preserves
                | apply bind_preserves | apply try_preserves | apply if_preserves ]).

Lemma continue_analysis_workflow_absent env id intent id' :
  preserves (fun s => s !! id' = None) (continue_analysis_workflow env id intent).
Proof. unfold continue_analysis_workflow. absent_step. Qed.

Lemma select_intent_absent env id req id' :
  preserves (fun s => s !! id' = None) (select_intent env id req).
Proof. unfold select_intent. absent_step. Qed.

(** X21: phase 2 (and the intent selection that schedules it) for an id
    with no record, whatever the store faults, leaves the table exactly as
    it was, so the status route keeps reporting [pending]; phase 2 still
    returns a [complete] state, built from the defaults (no files). *)
Theorem phase2_without_record_changes_nothing env id intent req w :
  store w !! id = None ->
  store (snd (select_intent env id req w)) = store w
  /\ exists w', continue_analysis_workflow env id intent w =
       (Ok (st_with_step (analysis_node env
              (st_with_intent (initial_state id (Some "English") "") intent)) "complete"), w')
     /\ store w' = store w
     /\ executive_summary (st_with_step (analysis_node env
              (st_with_intent (initial_state id (Some "English") "") intent)) "complete")
        = "Analysis could not be completed - no files available".
Proof.
  intros Hn. split.
  - apply map_eq. intros k. destruct (decide (k = id)) as [-> | Hk].
    + rewrite Hn. exact (select_intent_absent env id req id w Hn).
    + exact (select_intent_keeps env id req w k Hk).
  - destruct (continue_analysis_workflow_shape env id intent w) as [st0 [w1 [w' [H1 H]]]].
    destruct (reconstruct_state_cases env id w) as [st0' [w1' [H1' [_ [Hst | [r [l [Hr _]]]]]]]];
      [|congruence].
    rewrite H1 in H1'. injection H1' as -> _. subst st0'.
    exists w'. split; [exact H|]. split; [|reflexivity].
    apply map_eq. intros k. destruct (decide (k = id)) as [-> | Hk].
    + rewrite Hn. pose proof (continue_analysis_workflow_absent env id intent id w Hn) as Ha.
      rewrite H in Ha. exact Ha.
    + pose proof (continue_analysis_workflow_keeps env id intent w k Hk) as Ha.
      rewrite H in Ha. exact Ha.
Qed.

Lemma phase2_without_record_changes_nothing_witness :
  store (world_demo [false; true]) !! "job-7" = None
  /\ store (snd (select_intent env_demo "job-7" (mkIntentRequest "tenant" None)
                   (world_demo [false; true]))) = store (world_demo [false; true])
  /\ exists w', continue_analysis_workflow env_demo "job-7" "tenant" (world_demo [false; true]) =
       (Ok (st_with_step (analysis_node env_demo
              (st_with_intent (initial_state "job-7" (Some "English") "") "tenant")) "complete"), w')
     /\ store w' = store (world_demo [false; true])
     /\ executive_summary (st_with_step (analysis_node env_demo
              (st_with_intent (initial_state "job-7" (Some "English") "") "tenant")) "complete")
        = "Analysis could not be completed - no files available".
Proof.
  split; [reflexivity|].
  exact (phase2_without_record_changes_nothing env_demo "job-7" "tenant"
           (mkIntentRequest "tenant" None) (world_demo [false; true]) eq_refl).
Defined.

(** ** Progress and upload errors *)

(** X22: every step, listed or not, gets a progress between 0 and 100;
    along the steps the workflow writes ([domain_detection],
    [waiting_for_intent], [analysis], [persist], [complete]) it never
    decreases. *)
Theorem calculate_progress_bounded step :
  0 <= calculate_progress step <= 100
  /\ calculate_progress "domain_detection" <= calculate_progress "waiting_for_intent"
     <= calculate_progress "analysis"
  /\ calculate_progress "analysis" <= calculate_progress "persist"
     <= calculate_progress "complete".
Proof.
  split; [|split; vm_compute; split; discriminate].
  unfold calculate_progress, STEP_PROGRESS. cbn [assoc_get].
  repeat (destruct (String.eqb step _); [lia|]). lia.
Qed.

Lemma upload_loop_errors up ps ids metas errs ids' metas' errs' :
  upload_loop up ps ids metas errs = (ids', metas', errs') ->
  exists fails, errs' = app errs (map (fun f => "Failed to upload " ++ path_name (fst f) ++ ": " ++ snd f) fails)
    /\ sublist (map fst fails) ps
    /\ Forall (fun f => up (fst f) = UploadRaised (snd f)) fails.
Proof.
  revert ids metas errs.
  induction ps as [|p ps IH]; intros ids metas errs H; simpl in H.
  - injection H as <- <- <-. exists []. rewrite app_nil_r. repeat split; constructor.
  - destruct (up p) as [fid | e] eqn:Hp.
    + destruct (IH _ _ _ H) as [fails [He [Hs Hf]]].
      exists fails. repeat split; [exact He | apply sublist_cons; exact Hs | exact Hf].
    + destruct (IH _ _ _ H) as [fails [He [Hs Hf]]].
      exists ((p, e) :: fails). rewrite He, <- app_assoc. simpl.
      repeat split; [apply sublist_skip; exact Hs | constructor; [exact Hp | exact Hf]].
Qed.

(** X23: with a client, each error message of [upload_files] is
    [Failed to upload <name>: <message>] where [<name>] is the file name
    ([Path(path).name]) of a path, in path order, whose upload raised that
    message. *)
Theorem upload_files_errors_name_failed_paths env paths :
  openai_configured env = true ->
  exists fails,
    u_errors (upload_files env paths)
    = map (fun f => "Failed to upload " ++ path_name (fst f) ++ ": " ++ snd f) fails
    /\ sublist (map fst fails) paths
    /\ Forall (fun f => upload_one env (fst f) = UploadRaised (snd f)) fails.
Proof.
  intros Hc. unfold upload_files. rewrite Hc. simpl.
  destruct (upload_loop (upload_one env) paths [] [] []) as [[ids metas] errs] eqn:Hl.
  destruct (upload_loop_errors _ _ _ _ _ _ _ _ Hl) as [fails [He Hrest]].
  exists fails. simpl. split; [exact He | exact Hrest].
Qed.

Definition env_flaky : Env :=
  mkEnv true true (fun _ => ["/tmp/job-1/a.pdf"; "/tmp/job-1/b.pdf"])
    (fun p => if String.eqb p "/tmp/job-1/a.pdf" then UploadRaised "Connection reset" else Uploaded "file-b")
    (fun _ => ClsNoPayload) (fun _ _ _ _ _ => AnaNoPayload).

Lemma upload_files_errors_name_failed_paths_witness :
  openai_configured env_flaky = true
  /\ exists fails,
    u_errors (upload_files env_flaky ["/tmp/job-1/a.pdf"; "/tmp/job-1/b.pdf"])
    = map (fun f => "Failed to upload " ++ path_name (fst f) ++ ": " ++ snd f) fails
    /\ sublist (map fst fails) ["/tmp/job-1/a.pdf"; "/tmp/job-1/b.pdf"]
    /\ Forall (fun f => upload_one env_flaky (fst f) = UploadRaised (snd f)) fails.
Proof.
  split; [reflexivity|].
  exact (upload_files_errors_name_failed_paths env_flaky ["/tmp/job-1/a.pdf"; "/tmp/job-1/b.pdf"] eq_refl).
Defined.

(** ** The whole flow, with a working store *)

(** [intent_value] of [select_intent]: the custom text for [other]. *)
Definition intent_value (req : IntentSelectionRequest) : string :=
  if String.eqb (intent_id req) "other" then get_or (req_custom_intent req) ""
  else intent_id req.

Lemma select_intent_nofault env id req s :
  supabase_configured env = true ->
  (String.eqb (intent_id req) "other" = true -> str_truthy (req_custom_intent req) = true) ->
  select_intent env id req (mkWorld s []) =
  (Ok "analysis", mkWorld (alter (row_set_intent (intent_value req)) id s) []).
Proof.
  intros Hsb Hother. unfold select_intent. rewrite Hsb. cbn [negb].
  assert (Hg : (String.eqb (intent_id req) "other" && negb (str_truthy (req_custom_intent req)))%bool
               = false).
  { destruct (String.eqb (intent_id req) "other"); [rewrite Hother by reflexivity|]; reflexivity. }
  rewrite Hg. reflexivity.
Qed.

(** X24: for a new id, a successful upload step, a valid intent request
    and a working store, running phase 1, the intent route and phase 2
    leaves a record that the results route reports as complete, with the
    id, the domain detected in phase 1, the chosen intent (the custom text
    for [other]), the score of phase 2 and the uploaded document names. *)
Theorem full_flow_results_report_choices env created_at id lang req s :
  supabase_configured env = true -> s !! id = None ->
  current_step (file_upload_node env (initial_state id (Some lang) "uploading")) <> "error" ->
  (String.eqb (intent_id req) "other" = true -> str_truthy (req_custom_intent req) = true) ->
  exists st1 s1 s2 st2 s3 res,
    run_analysis_workflow env id lang (mkWorld s []) = (Ok st1, mkWorld s1 [])
    /\ select_intent env id req (mkWorld s1 []) = (Ok "analysis", mkWorld s2 [])
    /\ continue_analysis_workflow env id (intent_value req) (mkWorld s2 []) = (Ok st2, mkWorld s3 [])
    /\ get_analysis_results env created_at id (mkWorld s3 []) = (Ok res, mkWorld s3 [])
    /\ match res with
       | ResComplete rid dom intent score _ _ _ _ _ names _ =>
           rid = id /\ dom = domain st1 /\ intent = intent_value req
           /\ score = smart_score st2 /\ names = document_names st1
       | ResProcessing _ _ _ => False
       end.
Proof.
  intros Hsb Hn Hstep Hother.
  pose proof (phase1_success_nofault env id lang s Hsb Hn Hstep) as H1. cbv zeta in H1.
  set (st1 := domain_detection_node env
                (file_upload_node env (initial_state id (Some lang) "uploading"))) in *.
  set (r1 := row_set_domain_info st1 (row_set_step "waiting_for_intent"
               (row_set_step (current_step (file_upload_node env
                  (initial_state id (Some lang) "uploading"))) (initial_row id (Some lang))))).
  set (s1 := alter (row_set_domain_info st1) id _) in H1.
  assert (Hr1 : s1 !! id = Some r1) by (unfold s1; now rewrite !lookup_alter_eq, lookup_insert_eq).
  pose proof (select_intent_nofault env id req s1 Hsb Hother) as H2.
  set (r2 := row_set_intent (intent_value req) r1).
  assert (Hr2 : alter (row_set_intent (intent_value req)) id s1 !! id = Some r2)
    by (now rewrite lookup_alter_eq, Hr1).
  pose proof (continue_analysis_workflow_nofault env id (intent_value req) _ r2 Hsb Hr2) as H3.
  cbv zeta in H3.
  set (st2 := analysis_node env (st_with_intent (st_with_stored
                (initial_state id (Some "English") "") r2 (r_language r2)) (intent_value req))) in *.
  set (s3 := alter (row_set_step "complete") id _) in H3.
  set (rf := row_set_step "complete" (persist_row st2 (row_set_step "persist" r2))).
  assert (Hrf : s3 !! id = Some rf) by (unfold s3; now rewrite !lookup_alter_eq, Hr1).
  do 5 eexists. exists (ResComplete (r_id rf) (r_domain rf) (r_intent rf) (r_overall_score rf)
                   (r_score_components rf) (r_document_summary rf) (r_key_terms rf)
                   (r_main_obligations rf) (r_red_flags rf) (r_document_names rf)
                   (created_at (r_id rf))).
  split; [exact H1|]. split; [exact H2|]. split; [exact H3|]. split.
  - unfold get_analysis_results. rewrite Hsb. cbn [negb].
    unfold try_except. rewrite (bind_Ok _ _ _ _ _ (db_select_stored id s3 rf Hrf)).
    reflexivity.
  - destruct (analysis_node_frame env (st_with_intent (st_with_stored
                (initial_state id (Some "English") "") r2 (r_language r2)) (intent_value req)))
      as [_ [Hd [_ [Hdn [_ Hsi]]]]].
    fold st2 in Hd, Hdn, Hsi. simpl. rewrite Hd, Hdn, Hsi. repeat split.
Qed.

Lemma full_flow_results_report_choices_witness :
  supabase_configured env_demo = true /\ (∅ : gmap string Row) !! "job-5" = None
  /\ current_step (file_upload_node env_demo (initial_state "job-5" (Some "English") "uploading"))
     <> "error"
  /\ (String.eqb (intent_id (mkIntentRequest "other" (Some "subtenant"))) "other" = true ->
      str_truthy (req_custom_intent (mkIntentRequest "other" (Some "subtenant"))) = true)
  /\ exists st1 s1 s2 st2 s3 res,
    run_analysis_workflow env_demo "job-5" "English" (mkWorld ∅ []) = (Ok st1, mkWorld s1 [])
    /\ select_intent env_demo "job-5" (mkIntentRequest "other" (Some "subtenant")) (mkWorld s1 [])
       = (Ok "analysis", mkWorld s2 [])
    /\ continue_analysis_workflow env_demo "job-5"
         (intent_value (mkIntentRequest "other" (Some "subtenant"))) (mkWorld s2 [])
       = (Ok st2, mkWorld s3 [])
    /\ get_analysis_results env_demo (fun _ => "2026-01-01") "job-5" (mkWorld s3 [])
       = (Ok res, mkWorld s3 [])
    /\ match res with
       | ResComplete rid dom intent score _ _ _ _ _ names _ =>
           rid = "job-5" /\ dom = domain st1
           /\ intent = intent_value (mkIntentRequest "other" (Some "subtenant"))
           /\ score = smart_score st2 /\ names = document_names st1
       | ResProcessing _ _ _ => False
       end.
Proof.
  split; [reflexivity|]. split; [reflexivity|]. split; [discriminate|].
  split; [reflexivity|].
  exact (full_flow_results_report_choices env_demo (fun _ => "2026-01-01") "job-5" "English"
           (mkIntentRequest "other" (Some "subtenant")) ∅ eq_refl eq_refl ltac:(discriminate)
           (fun _ => eq_refl)).
Defined.

(** X25: on a stored record whose domain is empty or not in the
    taxonomy, the intents route answers [unsupported] with confidence 0,
    no intents and the allowed domains, whatever confidence is stored. *)
Theorem get_analysis_intents_unsupported_domain env id s r :
  supabase_configured env = true -> s !! id = Some r ->
  assoc_find (r_domain r) DOMAIN_TAXONOMY_FULL = None ->
  get_analysis_intents env id (mkWorld s []) =
  (Ok (mkDomainDetectionResult "unsupported" "Unsupported document type" 0 false []
         (Some ALLOWED_DOMAINS)), mkWorld s []).
Proof.
  intros Hsb Hr Hf. unfold get_analysis_intents. rewrite Hsb.
  unfold try_except. rewrite (bind_Ok _ _ _ _ _ (db_select_stored id s r Hr)).
  destruct (String.eqb (r_domain r) ""); [reflexivity|]. now rewrite Hf.
Qed.

Definition row_unknown_domain : Row :=
  mkRow "job-1" ["lease.pdf"] "unknown" (Some (9 # 10)%Q) "" None 0 None None None [] None
    [] [] [] None None ["file-lease.pdf"] "waiting_for_intent" None.

Lemma get_analysis_intents_unsupported_domain_witness :
  supabase_configured env_demo = true
  /\ ({[ "job-1" := row_unknown_domain ]} : gmap string Row) !! "job-1" = Some row_unknown_domain
  /\ assoc_find (r_domain row_unknown_domain) DOMAIN_TAXONOMY_FULL = None
  /\ get_analysis_intents env_demo "job-1" (mkWorld {[ "job-1" := row_unknown_domain ]} []) =
     (Ok (mkDomainDetectionResult "unsupported" "Unsupported document type" 0 false []
            (Some ALLOWED_DOMAINS)), mkWorld {[ "job-1" := row_unknown_domain ]} []).
Proof.
  split; [reflexivity|]. split; [reflexivity|]. split; [reflexivity|].
  exact (get_analysis_intents_unsupported_domain env_demo "job-1" {[ "job-1" := row_unknown_domain ]}
           row_unknown_domain eq_refl eq_refl eq_refl).
Defined.

(** X26: on a stored record whose domain is in the taxonomy but whose
    stored confidence is null, the intents route answers HTTP 500 (the
    response model rejects a null [domain_confidence]). *)
Theorem get_analysis_intents_null_confidence env id s r info :
  supabase_configured env = true -> s !! id = Some r ->
  assoc_find (r_domain r) DOMAIN_TAXONOMY_FULL = Some info ->
  r_domain_confidence r = None ->
  get_analysis_intents env id (mkWorld s []) =
  (Raise "HTTP 500: ValidationError: domain_confidence: Input should be a valid number",
   mkWorld s []).
Proof.
  intros Hsb Hr Hf Hc. unfold get_analysis_intents. rewrite Hsb.
  unfold try_except. rewrite (bind_Ok _ _ _ _ _ (db_select_stored id s r Hr)).
  destruct (String.eqb_spec (r_domain r) "") as [He | _].
  - rewrite He in Hf. discriminate.
  - now rewrite Hf, Hc.
Qed.

Definition row_no_conf : Row :=
  mkRow "job-1" ["lease.pdf"] "rental" None "" None 0 None None None [] None [] [] [] None None
    ["file-lease.pdf"] "waiting_for_intent" None.

Lemma get_analysis_intents_null_confidence_witness :
  exists info,
  supabase_configured env_demo = true
  /\ ({[ "job-1" := row_no_conf ]} : gmap string Row) !! "job-1" = Some row_no_conf
  /\ assoc_find (r_domain row_no_conf) DOMAIN_TAXONOMY_FULL = Some info
  /\ r_domain_confidence row_no_conf = None
  /\ get_analysis_intents env_demo "job-1" (mkWorld {[ "job-1" := row_no_conf ]} []) =
     (Raise "HTTP 500: ValidationError: domain_confidence: Input should be a valid number",
      mkWorld {[ "job-1" := row_no_conf ]} []).
Proof.
  eexists. split; [reflexivity|]. split; [reflexivity|]. split; [reflexivity|].
  split; [reflexivity|].
  exact (get_analysis_intents_null_confidence env_demo "job-1" {[ "job-1" := row_no_conf ]}
           row_no_conf _ eq_refl eq_refl eq_refl eq_refl).
Defined.

(** ** api/routes/analysis.py: [delete_analysis] *)



(** * Which code writes the record *)






